(** * organic_detection_api: a shallow embedding of [main.py]

    The service stores detection events in one SQLite table, answers
    aggregate queries over it and pushes every new event to the connected
    websocket clients.  The development follows the layout of the source:

    - [Sql]: the fragment of SQLite the queries use (text formatting of
      timestamps, [COUNT], [AVG], [GROUP BY], [LEFT JOIN], [CAST]);
    - [Store]: the [detections] table created by [init_db] and its [INSERT];
    - [Exn]: a state-and-exception monad for the handlers;
    - [Hub]: [ConnectionManager];
    - [Api]: the HTTP and websocket handlers;
    - [Props]: the vocabulary of the statements proved afterwards.  *)

From Stdlib Require Import ZArith List String Ascii Bool Lia Floats Sorted.
From Stdlib Require OrderedTypeEx.
Import ListNotations.
Set Warnings "-inexact-float".
Local Open Scope string_scope.
Local Open Scope list_scope.
Local Open Scope Z_scope.

(** ** SQLite fragment *)

Module Sql.

(** *** Timestamps

    [detection_time] is filled by [CURRENT_TIMESTAMP], the UTC text
    ['YYYY-MM-DD HH:MM:SS'].  A timestamp is kept as the number of seconds
    since 1970-01-01 00:00:00 UTC that the text denotes; on texts of that one
    shape SQLite's text comparison is the comparison of those numbers.  The
    text form only exists for years 0000 to 9999, which the record carries. *)

Definition seconds_per_day : Z := 86400.

(** Gregorian date of a day number (days since 1970-01-01), as SQLite
    derives it from the Julian day: year, month (1..12), day (1..31). *)
Definition civil_from_days (days : Z) : Z * Z * Z :=
  let z := days + 719468 in
  let era := z / 146097 in
  let doe := z - era * 146097 in
  let yoe := (doe - doe / 1460 + doe / 36524 - doe / 146096) / 365 in
  let doy := doe - (365 * yoe + yoe / 4 - yoe / 100) in
  let mp := (5 * doy + 2) / 153 in
  let d := doy - (153 * mp + 2) / 5 + 1 in
  let m := if mp <? 10 then mp + 3 else mp - 9 in
  let y := yoe + era * 400 + (if m <=? 2 then 1 else 0) in
  (y, m, d).

Definition year_of (t : Z) : Z :=
  let '(y, _, _) := civil_from_days (t / seconds_per_day) in y.
Definition month_of (t : Z) : Z :=
  let '(_, m, _) := civil_from_days (t / seconds_per_day) in m.
Definition day_of (t : Z) : Z :=
  let '(_, _, d) := civil_from_days (t / seconds_per_day) in d.
Definition hour_of (t : Z) : Z := (t mod seconds_per_day) / 3600.

Definition year_in_range (t : Z) : bool :=
  (0 <=? year_of t) && (year_of t <=? 9999).

Record datetime : Type := mk_datetime {
  unix : Z;
  unix_in_range : year_in_range unix = true
}.

(** *** Zero-padded decimal fields *)

Definition digit (d : Z) : ascii := ascii_of_nat (48 + Z.to_nat (d mod 10)).

Definition two_digits (n : Z) : string :=
  String (digit (n / 10)) (String (digit n) "").

Definition four_digits (n : Z) : string :=
  String (digit (n / 1000)) (String (digit (n / 100)) (two_digits n)).

(** [strftime('%H', t)], [strftime('%m', t)], [strftime('%Y', t)]. *)
Definition strftime_H (t : datetime) : string := two_digits (hour_of (unix t)).
Definition strftime_m (t : datetime) : string := two_digits (month_of (unix t)).
Definition strftime_Y (t : datetime) : string := four_digits (year_of (unix t)).

(** [DATE(t)]: the ['YYYY-MM-DD'] prefix of the text. *)
Definition DATE (t : datetime) : string :=
  (four_digits (year_of (unix t)) ++ "-" ++ two_digits (month_of (unix t))
     ++ "-" ++ two_digits (day_of (unix t)))%string.

(** [t > datetime('now', '-N hours')]: both sides are full timestamp texts. *)
Definition after_hours_before (now : datetime) (n : Z) (t : datetime) : bool :=
  unix now - n * 3600 <? unix t.

(** [CAST(s AS INTEGER)]: the longest prefix of decimal digits, read in
    base ten (no sign occurs in the texts cast here). *)
Definition digit_value (c : ascii) : option Z :=
  let n := Z.of_nat (nat_of_ascii c) in
  if (48 <=? n) && (n <=? 57) then Some (n - 48) else None.

Fixpoint cast_integer_from (acc : Z) (s : string) : Z :=
  match s with
  | EmptyString => acc
  | String c rest =>
      match digit_value c with
      | Some d => cast_integer_from (10 * acc + d) rest
      | None => acc
      end
  end.

Definition cast_integer (s : string) : Z := cast_integer_from 0 s.

(** *** Values and aggregates

    A [FLOAT] column holds a double or [NULL].  SQLite turns a NaN into
    [NULL], when it is bound to a statement and when it is the result of a
    function; and a column of real affinity keeps a double that is a whole
    number as an integer, so a zero of either sign reads back as [0.0]. *)

(** What the column gives back for a double bound to the [INSERT]. *)
Definition bind_double (x : float) : option float :=
  if PrimFloat.is_nan x then None
  else if PrimFloat.eqb x 0%float then Some 0%float
  else Some x.

(** [sqlite3_result_double]: the value of a function whose result is a
    double. *)
Definition result_double (x : float) : option float :=
  if PrimFloat.is_nan x then None else Some x.

Definition float_of_Z (n : Z) : float := PrimFloat.of_uint63 (Uint63.of_Z n).

(** [COUNT( * )] over the rows of a group. *)
Definition COUNT {A : Type} (rows : list A) : Z := Z.of_nat (List.length rows).

Definition non_null {A : Type} (xs : list (option A)) : list A :=
  flat_map (fun x => match x with Some v => [v] | None => [] end) xs.

(** [AVG(x)]: the sum of the non-[NULL] values over their number; [NULL]
    when there is none, and when the quotient is a NaN (an infinity and its
    opposite among the values). *)
Definition AVG (xs : list (option float)) : option float :=
  match non_null xs with
  | [] => None
  | vs => result_double (PrimFloat.div (fold_left PrimFloat.add vs 0%float)
                                       (float_of_Z (COUNT vs)))
  end.

(** [COALESCE(x, d)]. *)
Definition COALESCE {A : Type} (x : option A) (d : A) : A :=
  match x with Some v => v | None => d end.

(** *** GROUP BY

    SQLite forms the groups by running the rows through a sorter on the
    grouping key (binary collation on text), so the groups come out in
    ascending key order and the rows of a group keep their scan order. *)

Fixpoint group_insert {A : Type} (k : string) (a : A)
    (gs : list (string * list A)) : list (string * list A) :=
  match gs with
  | [] => [(k, [a])]
  | (k', g) :: rest =>
      match String.compare k k' with
      | Lt => (k, [a]) :: gs
      | Eq => (k', g ++ [a]) :: rest
      | Gt => (k', g) :: group_insert k a rest
      end
  end.

Definition group_by {A : Type} (key : A -> string) (rows : list A)
    : list (string * list A) :=
  fold_left (fun gs r => group_insert (key r) r gs) rows [].

(** *** LEFT JOIN and ORDER BY *)

Definition left_join {A B : Type} (on : A -> B -> bool)
    (l : list A) (r : list B) : list (A * option B) :=
  flat_map (fun a =>
              match filter (on a) r with
              | [] => [(a, None)]
              | ms => map (fun b => (a, Some b)) ms
              end) l.

Fixpoint order_insert {A : Type} (key : A -> Z) (a : A) (l : list A) : list A :=
  match l with
  | [] => [a]
  | b :: l' => if key b <=? key a then b :: order_insert key a l' else a :: l
  end.

(** [ORDER BY key]: a stable sort, ascending. *)
Definition order_by {A : Type} (key : A -> Z) (l : list A) : list A :=
  fold_left (fun acc a => order_insert key a acc) l [].

End Sql.

(** ** The [detections] table *)

Module Store.
Import Sql.

(** One row of
    [detections(id INTEGER PRIMARY KEY AUTOINCREMENT,
                detection_time DATETIME DEFAULT CURRENT_TIMESTAMP,
                item_type TEXT CHECK(item_type IN ('organic')),
                confidence FLOAT)]. *)
Record detection : Type := mk_detection {
  id : Z;
  detection_time : datetime;
  item_type : option string;
  confidence : option float
}.

(** The database file [waste.db]: the table and the [AUTOINCREMENT] counter
    SQLite keeps for it in [sqlite_sequence]. *)
Record db : Type := mk_db {
  detections : list detection;
  sqlite_sequence : Z
}.

Definition empty_db : db := {| detections := []; sqlite_sequence := 0 |}.

(** [init_db]: [CREATE TABLE IF NOT EXISTS] keeps an existing table; the
    index on [detection_time] changes no query result. *)
Definition init_db (file : option db) : db :=
  match file with
  | Some d => d
  | None => empty_db
  end.

(** [CHECK(item_type IN ('organic'))]: a constraint fails when it evaluates
    to false; on [NULL] it evaluates to [NULL] and passes. *)
Definition check_item_type (v : option string) : bool :=
  match v with
  | None => true
  | Some s => String.eqb s "organic"
  end.

Definition max_rowid : Z := 9223372036854775807.

(** The largest rowid the table has ever held. *)
Definition largest_rowid (d : db) : Z :=
  fold_right Z.max (sqlite_sequence d) (map id (detections d)).

Inductive sqlite_error : Type :=
| IntegrityError      (* CHECK constraint failed *)
| DatabaseFull.       (* SQLITE_FULL: the rowids are used up *)

(** [INSERT INTO detections (item_type, confidence) VALUES (?, ?)] followed
    by [SELECT last_insert_rowid()].  The rowid is chosen first, then the
    constraints are checked; a failed statement leaves the file as it was. *)
Definition insert (item : option string) (conf : option float)
    (now : datetime) (d : db) : (sqlite_error + Z) * db :=
  let last := largest_rowid d in
  if max_rowid <=? last then (inl DatabaseFull, d)
  else if negb (check_item_type item) then (inl IntegrityError, d)
  else
    let rowid := last + 1 in
    (inr rowid,
     {| detections := detections d ++
          [{| id := rowid; detection_time := now;
              item_type := item; confidence := conf |}];
        sqlite_sequence := rowid |}).

End Store.

(** ** The read-only queries: [get_stats] and [get_monthly_detections] *)

Module Stats.
Import Sql Store.

Record hourly_entry : Type := mk_hourly {
  hour : string;
  count : Z;
  hourly_confidence : float
}.

(** The dictionary [get_stats] returns. *)
Record stats : Type := mk_stats {
  daily_total : Z;
  daily_avg_confidence : option float;
  compost_kg : float;
  hourly_data : list hourly_entry
}.

(** Python's [float(conf or 0)]: [None] and a zero are falsy, NaN is not. *)
Definition float_or_0 (conf : option float) : float :=
  match conf with
  | None => 0%float
  | Some f => if PrimFloat.eqb f 0%float then 0%float else f
  end.

(** [WHERE DATE(detection_time) = DATE('now')]. *)
Definition today (now : datetime) (d : db) : list detection :=
  filter (fun r => String.eqb (DATE (detection_time r)) (DATE now)) (detections d).

(** [WHERE detection_time > datetime('now', '-24 hours')]. *)
Definition last_24_hours (now : datetime) (d : db) : list detection :=
  filter (fun r => after_hours_before now 24 (detection_time r)) (detections d).

(** The rows of the hourly query:
    [SELECT strftime('%H', detection_time) AS hour, COUNT( * ), AVG(confidence)
     ... GROUP BY hour]. *)
Definition hourly (now : datetime) (d : db) : list (string * Z * option float) :=
  map (fun '(h, g) => (h, COUNT g, AVG (map confidence g)))
      (group_by (fun r => strftime_H (detection_time r)) (last_24_hours now d)).

(** [get_stats(hours=24)].  The [hours] argument is accepted and not used:
    both queries are fixed texts.  Each of the two statements reads ['now']
    for itself: [now_daily] is the clock when the daily statement runs,
    [now_hourly] the clock when the hourly one does. *)
Definition get_stats (hours : Z) (now_daily now_hourly : datetime) (d : db) : stats :=
  let daily := (COUNT (today now_daily d),
                AVG (map confidence (today now_daily d))) in
  {| daily_total := fst daily;
     daily_avg_confidence := snd daily;
     compost_kg := PrimFloat.mul (float_of_Z (fst daily)) 0.1%float;
     hourly_data :=
       map (fun '(h, c, conf) =>
              {| hour := h; count := c; hourly_confidence := float_or_0 conf |})
           (hourly now_hourly d) |}.

Definition default_hours : Z := 24.

Record MonthlyDetection : Type := mk_monthly {
  month_name : string;
  detection_count : Z;
  masse : Z
}.

(** The [months] common table expression. *)
Definition months : list (Z * string) :=
  [ (1, "Janvier"); (2, "Février"); (3, "Mars"); (4, "Avril"); (5, "Mai");
    (6, "Juin"); (7, "Juillet"); (8, "Août"); (9, "Septembre");
    (10, "Octobre"); (11, "Novembre"); (12, "Décembre") ].

(** [WHERE strftime('%Y', detection_time) = '2025']. *)
Definition in_2025 (r : detection) : bool :=
  String.eqb (strftime_Y (detection_time r)) "2025".

(** The [detections_by_month] common table expression: month number and
    count of each month of 2025 that has a row. *)
Definition detections_by_month (d : db) : list (Z * Z) :=
  map (fun '(m, g) => (cast_integer m, COUNT g))
      (group_by (fun r => strftime_m (detection_time r))
                (filter in_2025 (detections d))).

(** [get_monthly_detections]. *)
Definition get_monthly_detections (d : db) : list MonthlyDetection :=
  let results :=
    order_by (fun '(m, _) => fst m)
      (left_join (fun (m : Z * string) (b : Z * Z) => fst m =? fst b)
                 months (detections_by_month d)) in
  map (fun '(m, b) =>
         let c := COALESCE (option_map snd b) 0 in
         {| month_name := snd m; detection_count := c; masse := c * 100 |})
      results.

End Stats.

(** ** Handlers as state transformers that may raise *)

Module Exn.

Inductive exn : Type :=
| Sqlite (e : Store.sqlite_error)   (* sqlite3.Error *)
| ValueError                        (* list.remove(x): x not in list *)
| SendError                         (* send_json on a connection that is gone *)
| KeyError.                         (* receive_text on a frame without text *)

Inductive outcome (A : Type) : Type :=
| Return (a : A)
| Raise (e : exn).
Arguments Return {A} a.
Arguments Raise {A} e.

Definition M (S A : Type) : Type := S -> outcome A * S.

Definition ret {S A : Type} (a : A) : M S A := fun s => (Return a, s).
Definition raise {S A : Type} (e : exn) : M S A := fun s => (Raise e, s).
Definition bind {S A B : Type} (c : M S A) (k : A -> M S B) : M S B :=
  fun s =>
    match c s with
    | (Return a, s') => k a s'
    | (Raise e, s') => (Raise e, s')
    end.
Definition get {S : Type} : M S S := fun s => (Return s, s).
Definition put {S : Type} (s : S) : M S unit := fun _ => (Return tt, s).

End Exn.

Notation "x <- c ;; k" := (Exn.bind c (fun x => k))
  (at level 61, c at next level, right associativity).
Notation "c ;;; k" := (Exn.bind c (fun _ => k))
  (at level 61, right associativity).

(** ** [ConnectionManager] *)

Module Hub.
Import Exn.

(** A websocket object, compared by identity. *)
Definition WebSocket : Type := nat.

Section Manager.
Variable message : Type.

(** The manager's list, and the connections as the server sees them: which
    are still open, and what has been sent on them, oldest first. *)
Record hub : Type := mk_hub {
  active_connections : list WebSocket;
  is_open : WebSocket -> bool;
  sent : list (WebSocket * message)
}.

(** [ConnectionManager()]. *)
Definition new_manager (open : WebSocket -> bool) : hub :=
  {| active_connections := []; is_open := open; sent := [] |}.

(** [await connection.send_json(message)]: raises when the connection is
    gone. *)
Definition send_json (ws : WebSocket) (m : message) : M hub unit :=
  fun h =>
    if is_open h ws
    then (Return tt,
          {| active_connections := active_connections h;
             is_open := is_open h;
             sent := sent h ++ [(ws, m)] |})
    else (Raise SendError, h).

(** [connect]: once the handshake is accepted, [active_connections.append]. *)
Definition connect (ws : WebSocket) : M hub unit :=
  fun h =>
    (Return tt,
     {| active_connections := active_connections h ++ [ws];
        is_open := is_open h;
        sent := sent h |}).

(** [for connection in self.active_connections: await connection.send_json(message)]. *)
Fixpoint send_all (conns : list WebSocket) (m : message) : M hub unit :=
  match conns with
  | [] => ret tt
  | ws :: rest => send_json ws m ;;; send_all rest m
  end.

Definition broadcast (m : message) : M hub unit :=
  h <- get ;; send_all (active_connections h) m.

(** Python's [list.remove(x)]: drops the first element equal to [x]. *)
Fixpoint list_remove (x : WebSocket) (l : list WebSocket) : option (list WebSocket) :=
  match l with
  | [] => None
  | y :: l' =>
      if Nat.eqb y x then Some l'
      else option_map (cons y) (list_remove x l')
  end.

(** [manager.active_connections.remove(websocket)]. *)
Definition remove (ws : WebSocket) : M hub unit :=
  fun h =>
    match list_remove ws (active_connections h) with
    | Some l =>
        (Return tt,
         {| active_connections := l; is_open := is_open h; sent := sent h |})
    | None => (Raise ValueError, h)
    end.

End Manager.

Arguments active_connections {message} h.
Arguments is_open {message} h ws.
Arguments sent {message} h.
Arguments send_json {message} ws m h.
Arguments connect {message} ws h.
Arguments send_all {message} conns m h.
Arguments broadcast {message} m h.
Arguments remove {message} ws h.

End Hub.

(** ** The handlers *)

Module Api.
Import Sql Store Stats Exn Hub.

(** The message [add_detection] broadcasts. *)
Record detection_data : Type := mk_data {
  data_id : Z;
  data_confidence : float;
  data_timestamp : datetime
}.

Record message : Type := mk_message {
  event : string;
  data : detection_data;
  message_stats : stats
}.

(** The process state: the database file and the module-level [manager]. *)
Record world : Type := mk_world {
  waste_db : db;
  manager : hub message
}.

Definition on_manager {A : Type} (c : M (hub message) A) : M world A :=
  fun w =>
    let (r, h) := c (manager w) in
    (r, {| waste_db := waste_db w; manager := h |}).

(** The instants at which one [add_detection] request reads the clock:
    [CURRENT_TIMESTAMP] of the insert, ['now'] of the daily and of the hourly
    statement of [get_stats], and [datetime.now()] of the message. *)
Record clock : Type := mk_clock {
  at_insert : datetime;
  at_daily : datetime;
  at_hourly : datetime;
  at_message : datetime
}.

(** The [with sqlite3.connect('waste.db') as conn] block of [add_detection]:
    the insert is committed when the block ends normally. *)
Definition execute_insert (confidence : float) (stamp : datetime) : M world Z :=
  fun w =>
    match insert (Some "organic") (bind_double confidence) stamp (waste_db w) with
    | (inr rowid, d) => (Return rowid, {| waste_db := d; manager := manager w |})
    | (inl e, d) => (Raise (Sqlite e), {| waste_db := d; manager := manager w |})
    end.

Record response : Type := mk_response { status : string }.

(** [GET /]. *)
Definition ping : string := "pong".

(** The dictionary handed to [manager.broadcast]. *)
Definition new_detection (detection_id : Z) (confidence : float)
    (now : datetime) (stats : stats) : message :=
  {| event := "new_detection";
     data := {| data_id := detection_id;
                data_confidence := confidence;
                data_timestamp := now |};
     message_stats := stats |}.

(** [POST /api/organic].  [now] holds the readings of the clock during the
    request.  The debug [print] has no part in the result. *)
Definition add_detection (confidence : float) (now : clock) : M world response :=
  detection_id <- execute_insert confidence (at_insert now) ;;
  w <- get ;;
  let stats := get_stats default_hours (at_daily now) (at_hourly now) (waste_db w) in
  on_manager (broadcast (new_detection detection_id confidence (at_message now) stats)) ;;;
  ret {| status := "success" |}.

(** What a client sends on [/ws]: text frames, binary frames, a
    disconnect. *)
Inductive frame : Type :=
| Text (s : string)
| Bytes (b : string)
| Disconnect.

(** The [while True: await websocket.receive_text()] loop under its
    [except WebSocketDisconnect] handler, run on the frames received so far;
    when they end without a disconnect the handler is still waiting.
    [receive_text] reads the text of the frame: on a binary frame it raises
    [KeyError], which the handler does not catch. *)
Fixpoint receive_loop (ws : WebSocket) (frames : list frame) : M world unit :=
  match frames with
  | [] => ret tt
  | Text _ :: rest => receive_loop ws rest
  | Bytes _ :: _ => raise KeyError
  | Disconnect :: _ => on_manager (remove ws)
  end.

(** [websocket_endpoint]. *)
Definition websocket_endpoint (ws : WebSocket) (frames : list frame) : M world unit :=
  on_manager (connect ws) ;;; receive_loop ws frames.

End Api.

(** ** Vocabulary of the statements *)

Module Props.
Import Sql Store Stats Exn Hub Api.

(** The connections a broadcast reaches: those listed before the first one
    that is no longer open. *)
Fixpoint open_prefix (open : WebSocket -> bool) (conns : list WebSocket)
    : list WebSocket :=
  match conns with
  | [] => []
  | ws :: rest => if open ws then ws :: open_prefix open rest else []
  end.

(** The messages received on connection [ws], oldest first. *)
Definition received {message : Type} (h : hub message) (ws : WebSocket)
    : list message :=
  map snd (filter (fun p => Nat.eqb (fst p) ws) (sent h)).

(** The events of the trailing [hours] hours, as the specification words
    the window of the hourly breakdown. *)
Definition trailing_window (hours : Z) (now : datetime) (d : db) : list detection :=
  filter (fun r => after_hours_before now hours (detection_time r)) (detections d).

Definition hour_labels : list string :=
  [ "00"; "01"; "02"; "03"; "04"; "05"; "06"; "07"; "08"; "09"; "10"; "11";
    "12"; "13"; "14"; "15"; "16"; "17"; "18"; "19"; "20"; "21"; "22"; "23" ].

(** The stored events of month [n] of the year 2025. *)
Definition events_of_month_2025 (d : db) (n : Z) : list detection :=
  filter (fun r => (year_of (unix (detection_time r)) =? 2025)
                   && (month_of (unix (detection_time r)) =? n))
         (detections d).

(** Groups are compared by their key, as texts. *)
Definition key_lt {A : Type} (a b : string * A) : Prop :=
  String.compare (fst a) (fst b) = Lt.

(** The number of rows filed under key [k]. *)
Definition filed_under {A : Type} (k : string) (gs : list (string * list A)) : nat :=
  List.length (flat_map snd (filter (fun kg => String.eqb (fst kg) k) gs)).

(** The entry of the monthly breakdown for a row [(number, name)] of
    [months], written from the stored events. *)
Definition monthly_entry (d : db) (m : Z * string) : MonthlyDetection :=
  {| month_name := snd m;
     detection_count := COUNT (events_of_month_2025 d (fst m));
     masse := COUNT (events_of_month_2025 d (fst m)) * 100 |}.

(** What the join pairs a month with. *)
Definition joined_count (d : db) (m : Z * string) : option (Z * Z) :=
  if COUNT (events_of_month_2025 d (fst m)) =? 0 then None
  else Some (fst m, COUNT (events_of_month_2025 d (fst m))).

(** Some instants. *)
Definition at_2025_01_01_00_00_00 : datetime := mk_datetime 1735689600 eq_refl.
Definition at_2025_03_15_20_30_00 : datetime := mk_datetime 1742070600 eq_refl.
Definition at_2025_03_15_22_30_00 : datetime := mk_datetime 1742077800 eq_refl.
Definition at_2024_12_31_23_59_59 : datetime := mk_datetime 1735689599 eq_refl.
Definition at_2025_03_15_00_00_00 : datetime := mk_datetime 1741996800 eq_refl.
Definition at_2025_03_15_23_59_59 : datetime := mk_datetime 1742083199 eq_refl.
Definition at_2025_03_16_00_00_00 : datetime := mk_datetime 1742083200 eq_refl.

(** A request served within one second of the clock. *)
Definition instant (t : datetime) : clock :=
  {| at_insert := t; at_daily := t; at_hourly := t; at_message := t |}.

(** A request that stamps its row on the last second of 2025-03-15 and reads
    the clock again, for the statistics and the message, one second later. *)
Definition across_midnight : clock :=
  {| at_insert := at_2025_03_15_23_59_59;
     at_daily := at_2025_03_16_00_00_00;
     at_hourly := at_2025_03_16_00_00_00;
     at_message := at_2025_03_16_00_00_00 |}.

(** The database after [add_detection]'s insert, and the message it then
    broadcasts. *)
Definition after_insert (confidence : float) (now : clock) (w : world) : db :=
  {| detections := detections (waste_db w) ++
       [{| id := largest_rowid (waste_db w) + 1; detection_time := at_insert now;
           item_type := Some "organic"; confidence := bind_double confidence |}];
     sqlite_sequence := largest_rowid (waste_db w) + 1 |}.

Definition broadcast_of (confidence : float) (now : clock) (w : world) : message :=
  new_detection (largest_rowid (waste_db w) + 1) confidence (at_message now)
    (get_stats default_hours (at_daily now) (at_hourly now)
       (after_insert confidence now w)).

(** Four events: one on the last second of 2024, one on the first of 2025,
    two on 2025-03-15. *)
Definition around_new_year : db :=
  {| detections :=
       [{| id := 1; detection_time := at_2024_12_31_23_59_59;
           item_type := Some "organic"; confidence := Some 0.5%float |};
        {| id := 2; detection_time := at_2025_01_01_00_00_00;
           item_type := Some "organic"; confidence := Some 0.25%float |};
        {| id := 3; detection_time := at_2025_03_15_20_30_00;
           item_type := Some "organic"; confidence := Some 0.75%float |};
        {| id := 4; detection_time := at_2025_03_15_22_30_00;
           item_type := Some "organic"; confidence := None |}];
     sqlite_sequence := 4 |}.

Definition no_client : hub message :=
  new_manager message (fun _ => true).

Definition fresh_world : world :=
  {| waste_db := empty_db; manager := no_client |}.

(** C4, as the specification words it: removing a handle that is not
    subscribed is a silent no-op. *)
Definition unsubscribe_is_idempotent : Prop :=
  forall (h : hub message) (ws : WebSocket),
    ~ In ws (active_connections h) -> remove ws h = (Return tt, h).

(** Two subscribers, the first of which has gone away. *)
Definition first_client_gone : hub message :=
  {| active_connections := [1%nat; 2%nat];
     is_open := fun ws => Nat.eqb ws 2;
     sent := [] |}.

(** C1, as the specification words it: every subscriber whose connection is
    open receives the message, the ones whose connection is gone are removed,
    and the broadcast itself returns normally. *)
Definition broadcast_isolates_failures : Prop :=
  forall (h : hub message) (m : message),
    fst (broadcast m h) = Return tt
    /\ (forall ws, In ws (active_connections h) -> is_open h ws = true ->
                   In m (received (snd (broadcast m h)) ws))
    /\ active_connections (snd (broadcast m h)) =
         filter (is_open h) (active_connections h).

(** C7, as the specification words it: whatever the category, unless it is
    ['organic'], the insert fails and the table is left as it was. *)
Definition append_rejects_every_other_category : Prop :=
  forall (d : db) (category : option string) (conf : option float) (now : datetime),
    category <> Some "organic" ->
    exists e, insert category conf now d = (inl e, d).

(** Three subscribers, the second of which has gone away. *)
Definition second_client_gone : world :=
  {| waste_db := empty_db;
     manager := {| active_connections := [1%nat; 2%nat; 3%nat];
                   is_open := fun ws => negb (Nat.eqb ws 2);
                   sent := [] |} |}.

(** A table that already holds two rows, with one reachable subscriber. *)
Definition two_rows_one_client : world :=
  {| waste_db :=
       {| detections :=
            [{| id := 4; detection_time := at_2024_12_31_23_59_59;
                item_type := Some "organic"; confidence := Some 0.5%float |};
             {| id := 9; detection_time := at_2025_01_01_00_00_00;
                item_type := Some "organic"; confidence := Some 0.25%float |}];
          sqlite_sequence := 11 |};
     manager := {| active_connections := [5%nat];
                   is_open := fun _ => true;
                   sent := [] |} |}.

(** One event, detected at 20:30:00 on 2025-03-15. *)
Definition one_event_at_20_30 : db :=
  {| detections :=
       [{| id := 1; detection_time := at_2025_03_15_20_30_00;
           item_type := Some "organic"; confidence := Some 0.5%float |}];
     sqlite_sequence := 1 |}.

(** The day number of a Gregorian date: the inverse of [civil_from_days],
    by which two timestamps with the same [DATE] text are seen to lie on the
    same day. *)
Definition days_from_civil (c : Z * Z * Z) : Z :=
  let '(y, m, d) := c in
  let y' := if m <=? 2 then y - 1 else y in
  let era := y' / 400 in
  let yoe := y' - era * 400 in
  let mp := if 2 <? m then m - 3 else m + 9 in
  let doy := (153 * mp + 2) / 5 + d - 1 in
  let doe := yoe * 365 + yoe / 4 - yoe / 100 + doy in
  era * 146097 + doe - 719468.

(** The ids of the table grow in storage order. *)
Definition ids_increasing (d : db) : Prop :=
  StronglySorted Z.lt (map id (detections d)).

(** Every stored category is the known one. *)
Definition all_organic (d : db) : Prop :=
  Forall (fun r => item_type r = Some "organic") (detections d).

(** The sum of a column. *)
Definition total (xs : list Z) : Z := fold_right Z.add 0 xs.

(** A table whose rowids are used up, with one reachable subscriber. *)
Definition table_full : world :=
  {| waste_db :=
       {| detections :=
            [{| id := 9223372036854775807;
                detection_time := at_2025_01_01_00_00_00;
                item_type := Some "organic"; confidence := Some 0.5%float |}];
          sqlite_sequence := 9223372036854775807 |};
     manager := {| active_connections := [5%nat];
                   is_open := fun _ => true;
                   sent := [] |} |}.

(** Subscribers 1, 2 and 3, all reachable. *)
Definition three_clients : hub message :=
  {| active_connections := [1%nat; 2%nat; 3%nat];
     is_open := fun _ => true;
     sent := [] |}.

(** Two messages. *)
Definition message_1 : message :=
  new_detection 1 0.5%float at_2025_01_01_00_00_00
    (get_stats default_hours at_2025_01_01_00_00_00 at_2025_01_01_00_00_00 empty_db).
Definition message_2 : message :=
  new_detection 2 0.25%float at_2025_03_15_20_30_00
    (get_stats default_hours at_2025_03_15_20_30_00 at_2025_03_15_20_30_00 empty_db).

(** A run of [add_detection] requests, whatever their outcomes. *)
Fixpoint add_detections (requests : list (float * clock)) (w : world) : world :=
  match requests with
  | [] => w
  | (confidence, now) :: rest =>
      add_detections rest (snd (add_detection confidence now w))
  end.

End Props.

(** * Properties *)

Import Sql Store Stats Exn Hub Api Props.

(** ** The connection manager *)

Section HubFacts.
Context {message : Type}.
Implicit Types (h : hub message) (m : message) (ws : WebSocket).

Lemma hub_eta h :
  {| active_connections := active_connections h;
     is_open := is_open h;
     sent := sent h |} = h.
Proof. destruct h; reflexivity. Qed.

(** The loop of [broadcast] sends to the connections in list order and
    stops, raising, at the first one that is gone. *)
Lemma send_all_spec conns m : forall h,
  send_all conns m h =
    (if forallb (is_open h) conns then Return tt else Raise SendError,
     {| active_connections := active_connections h;
        is_open := is_open h;
        sent := sent h ++ map (fun ws => (ws, m)) (open_prefix (is_open h) conns) |}).
Proof.
  induction conns as [|ws rest IH]; intros h; simpl.
  - unfold ret. now rewrite app_nil_r, hub_eta.
  - unfold bind, send_json.
    destruct (is_open h ws) eqn:Hopen; simpl.
    + rewrite IH; simpl. now rewrite <- app_assoc.
    + now rewrite app_nil_r, hub_eta.
Qed.

Lemma broadcast_spec m h :
  broadcast m h =
    (if forallb (is_open h) (active_connections h) then Return tt else Raise SendError,
     {| active_connections := active_connections h;
        is_open := is_open h;
        sent := sent h ++ map (fun ws => (ws, m))
                              (open_prefix (is_open h) (active_connections h)) |}).
Proof. unfold broadcast, bind, get. apply send_all_spec. Qed.

Lemma open_prefix_all (open : WebSocket -> bool) conns :
  forallb open conns = true -> open_prefix open conns = conns.
Proof.
  induction conns as [|ws rest IH]; simpl; [reflexivity|].
  destruct (open ws); simpl; [|discriminate].
  intros H. now rewrite IH.
Qed.

Lemma open_prefix_split (open : WebSocket -> bool) l1 ws l2 :
  forallb open l1 = true -> open ws = false ->
  open_prefix open (l1 ++ ws :: l2) = l1.
Proof.
  induction l1 as [|x l1 IH]; simpl; intros Hall Hws.
  - now rewrite Hws.
  - apply andb_prop in Hall as [Hx Hall]. rewrite Hx. now rewrite IH.
Qed.

Lemma forallb_split_false (open : WebSocket -> bool) l1 ws l2 :
  open ws = false -> forallb open (l1 ++ ws :: l2) = false.
Proof.
  intros Hws. rewrite forallb_app. simpl. rewrite Hws.
  now rewrite andb_false_r.
Qed.

(** [list.remove] on a list that holds the element. *)
Lemma list_remove_present ws l1 l2 :
  ~ In ws l1 -> list_remove ws (l1 ++ ws :: l2) = Some (l1 ++ l2).
Proof.
  induction l1 as [|x l1 IH]; simpl; intros Hnot.
  - now rewrite Nat.eqb_refl.
  - destruct (Nat.eqb x ws) eqn:E.
    + apply Nat.eqb_eq in E. exfalso. apply Hnot. now left.
    + rewrite IH by tauto. reflexivity.
Qed.

(** [list.remove] on a list that does not hold the element. *)
Lemma list_remove_absent ws l :
  ~ In ws l -> list_remove ws l = None.
Proof.
  induction l as [|x l IH]; simpl; intros Hnot; [reflexivity|].
  destruct (Nat.eqb x ws) eqn:E.
  - apply Nat.eqb_eq in E. exfalso. apply Hnot. now left.
  - rewrite IH by tauto. reflexivity.
Qed.

Lemma list_remove_some_in ws l l' :
  list_remove ws l = Some l' -> In ws l.
Proof.
  revert l'. induction l as [|x l IH]; simpl; intros l' H; [discriminate|].
  destruct (Nat.eqb x ws) eqn:E.
  - apply Nat.eqb_eq in E. now left.
  - destruct (list_remove ws l); [|discriminate]. right. eapply IH. reflexivity.
Qed.

End HubFacts.

(** ** The store *)

Lemma largest_rowid_bounds (d : db) :
  sqlite_sequence d <= largest_rowid d /\
  Forall (fun r => id r <= largest_rowid d) (detections d).
Proof.
  unfold largest_rowid. induction (detections d) as [|r rows [IHs IHr]]; simpl.
  - split; [lia | constructor].
  - split; [lia|]. constructor; [lia|].
    eapply Forall_impl; [|exact IHr]. simpl. intros; lia.
Qed.

(** An insert of the one known category into a table that is not full. *)
Lemma insert_organic (conf : option float) (now : datetime) (d : db) :
  largest_rowid d < max_rowid ->
  insert (Some "organic") conf now d =
    (inr (largest_rowid d + 1),
     {| detections := detections d ++
          [{| id := largest_rowid d + 1; detection_time := now;
              item_type := Some "organic"; confidence := conf |}];
        sqlite_sequence := largest_rowid d + 1 |}).
Proof.
  intros Hroom. unfold insert.
  destruct (max_rowid <=? largest_rowid d) eqn:E; [apply Z.leb_le in E; lia|].
  reflexivity.
Qed.

Lemma insert_full (item : option string) (conf : option float)
    (now : datetime) (d : db) :
  max_rowid <= largest_rowid d ->
  insert item conf now d = (inl DatabaseFull, d).
Proof.
  intros Hfull. unfold insert.
  destruct (max_rowid <=? largest_rowid d) eqn:E; [reflexivity|].
  apply Z.leb_gt in E; lia.
Qed.

(** ** [add_detection], step by step *)

Lemma add_detection_full confidence now w :
  max_rowid <= largest_rowid (waste_db w) ->
  add_detection confidence now w = (Raise (Sqlite DatabaseFull), w).
Proof.
  intros Hfull. unfold add_detection, bind, execute_insert.
  rewrite insert_full by assumption. now destruct w.
Qed.

Lemma add_detection_stored confidence now w :
  largest_rowid (waste_db w) < max_rowid ->
  add_detection confidence now w =
    (if forallb (is_open (manager w)) (active_connections (manager w))
     then Return {| status := "success" |} else Raise SendError,
     {| waste_db := after_insert confidence now w;
        manager :=
          {| active_connections := active_connections (manager w);
             is_open := is_open (manager w);
             sent := sent (manager w) ++
                     map (fun ws => (ws, broadcast_of confidence now w))
                         (open_prefix (is_open (manager w))
                                      (active_connections (manager w))) |} |}).
Proof.
  intros Hroom. unfold add_detection, bind, execute_insert, get, on_manager.
  rewrite insert_organic by assumption. simpl.
  rewrite broadcast_spec. simpl.
  destruct (forallb _ _); reflexivity.
Qed.

(** ** Removing a subscriber *)

(** C4 fails on the code: after one client has connected and been removed,
    removing it a second time raises [ValueError]. *)
Lemma unsubscribe_twice_raises :
  (let h1 := snd (connect 7%nat no_client) in
   let h2 := snd (remove 7%nat h1) in
   remove 7%nat h2 = (Raise ValueError, h2))
  /\ ~ unsubscribe_is_idempotent.
Proof.
  split; [reflexivity|].
  intros Hclaim.
  pose (h2 := snd (remove 7%nat (snd (connect 7%nat no_client)))).
  assert (Hgone : ~ In 7%nat (active_connections h2)) by (simpl; tauto).
  specialize (Hclaim h2 7%nat Hgone).
  discriminate Hclaim.
Qed.

(** C4 (amended): [active_connections.remove(ws)] drops the first occurrence
    of a subscribed handle and returns; on a handle that is not in the list
    (never subscribed, or already removed) it raises [ValueError] and leaves
    the manager as it was. *)
Theorem remove_subscribed_or_raise :
  forall (h : hub message) (ws : WebSocket),
    (forall l1 l2,
        active_connections h = l1 ++ ws :: l2 -> ~ In ws l1 ->
        remove ws h =
          (Return tt,
           {| active_connections := l1 ++ l2;
              is_open := is_open h; sent := sent h |}))
    /\ (~ In ws (active_connections h) -> remove ws h = (Raise ValueError, h)).
Proof.
  intros h ws. split.
  - intros l1 l2 Hsplit Hfirst. unfold remove.
    rewrite Hsplit, list_remove_present by assumption. reflexivity.
  - intros Habsent. unfold remove.
    now rewrite list_remove_absent.
Qed.

Lemma remove_subscribed_or_raise_witness :
  (let h := snd (connect 7%nat no_client) in
   remove 7%nat h = (Return tt, no_client))
  /\ remove 7%nat no_client = (Raise ValueError, no_client).
Proof.
  split.
  - apply (proj1 (remove_subscribed_or_raise (snd (connect 7%nat no_client)) 7%nat)
             [] []); simpl; [reflexivity | tauto].
  - apply (proj2 (remove_subscribed_or_raise no_client 7%nat)). simpl. tauto.
Defined.

(** The handler of [/ws] removes exactly the handle it appended: once the
    client has disconnected, the subscriber list is what it was before the
    connection, and the removal cannot raise. *)
Lemma receive_loop_until_disconnect ws texts rest w :
  receive_loop ws (map Text texts ++ Disconnect :: rest) w
  = on_manager (remove ws) w.
Proof. induction texts as [|s texts IH]; [reflexivity | exact IH]. Qed.

Lemma websocket_endpoint_connect_then_disconnect ws texts rest w :
  ~ In ws (active_connections (manager w)) ->
  websocket_endpoint ws (map Text texts ++ Disconnect :: rest) w = (Return tt, w).
Proof.
  intros Hnew. unfold websocket_endpoint, bind.
  unfold on_manager at 1. unfold connect. cbn [fst snd].
  rewrite receive_loop_until_disconnect.
  unfold on_manager, remove. cbn [manager active_connections is_open sent waste_db].
  rewrite list_remove_present by assumption.
  rewrite app_nil_r. destruct w as [d [conns open log]]. reflexivity.
Qed.

(** ** Broadcasting *)

(** C1 fails on the code: with a dead first subscriber the broadcast raises,
    the live second subscriber receives nothing, the dead one stays in the
    list, and [add_detection] ends with the same exception. *)
Lemma broadcast_aborts_on_dead_client :
  (let m := new_detection 1 0.5%float at_2025_01_01_00_00_00
              (get_stats default_hours at_2025_01_01_00_00_00
                 at_2025_01_01_00_00_00 empty_db) in
   broadcast m first_client_gone = (Raise SendError, first_client_gone)
   /\ received (snd (broadcast m first_client_gone)) 2%nat = []
   /\ fst (add_detection 0.5%float (instant at_2025_01_01_00_00_00)
             {| waste_db := empty_db; manager := first_client_gone |})
      = Raise SendError)
  /\ ~ broadcast_isolates_failures.
Proof.
  split; [repeat split|].
  intros Hclaim.
  destruct (Hclaim first_client_gone
              (new_detection 1 0.5%float at_2025_01_01_00_00_00
                 (get_stats default_hours at_2025_01_01_00_00_00
                    at_2025_01_01_00_00_00 empty_db)))
    as [Hret _].
  discriminate Hret.
Qed.

(** C1 (amended): [broadcast] sends to the subscribers in list order.  When
    every subscribed connection is open, each receives the message and the
    call returns.  When the connection of a subscriber is gone, the
    subscribers listed before it have received the message, those after it
    receive nothing, the list is left as it was, and the exception leaves
    [add_detection] too, after the insert has been committed. *)
Theorem broadcast_stops_at_first_dead_connection :
  forall (w : world) (confidence : float) (now : clock) (m : message),
    (forallb (is_open (manager w)) (active_connections (manager w)) = true ->
     broadcast m (manager w) =
       (Return tt,
        {| active_connections := active_connections (manager w);
           is_open := is_open (manager w);
           sent := sent (manager w) ++
                   map (fun ws => (ws, m)) (active_connections (manager w)) |}))
    /\ (forall l1 ws l2,
           active_connections (manager w) = l1 ++ ws :: l2 ->
           forallb (is_open (manager w)) l1 = true ->
           is_open (manager w) ws = false ->
           broadcast m (manager w) =
             (Raise SendError,
              {| active_connections := l1 ++ ws :: l2;
                 is_open := is_open (manager w);
                 sent := sent (manager w) ++ map (fun ws => (ws, m)) l1 |})
           /\ (largest_rowid (waste_db w) < max_rowid ->
               add_detection confidence now w =
                 (Raise SendError,
                  {| waste_db := after_insert confidence now w;
                     manager :=
                       {| active_connections := l1 ++ ws :: l2;
                          is_open := is_open (manager w);
                          sent := sent (manager w) ++
                                  map (fun ws => (ws, broadcast_of confidence now w)) l1
                       |} |}))).
Proof.
  intros w confidence now m. split.
  - intros Hall. rewrite broadcast_spec, Hall.
    now rewrite open_prefix_all.
  - intros l1 ws l2 Hsplit Hl1 Hws.
    assert (Hnot : forallb (is_open (manager w)) (active_connections (manager w)) = false)
      by (rewrite Hsplit; now apply forallb_split_false).
    assert (Hpre : open_prefix (is_open (manager w)) (active_connections (manager w)) = l1)
      by (rewrite Hsplit; now apply open_prefix_split).
    split.
    + now rewrite broadcast_spec, Hnot, Hpre, Hsplit.
    + intros Hroom.
      now rewrite add_detection_stored, Hnot, Hpre, Hsplit by assumption.
Qed.

Lemma broadcast_stops_at_first_dead_connection_witness :
  fst (add_detection 0.5%float (instant at_2025_01_01_00_00_00) second_client_gone)
    = Raise SendError
  /\ map fst (sent (manager (snd (add_detection 0.5%float (instant at_2025_01_01_00_00_00)
                                     second_client_gone)))) = [1%nat]
  /\ List.length (detections (waste_db (snd (add_detection 0.5%float
                      (instant at_2025_01_01_00_00_00) second_client_gone)))) = 1%nat.
Proof.
  destruct (proj2 (broadcast_stops_at_first_dead_connection second_client_gone
                     0.5%float (instant at_2025_01_01_00_00_00)
                     (broadcast_of 0.5%float (instant at_2025_01_01_00_00_00)
                        second_client_gone))
              [1%nat] 2%nat [3%nat] eq_refl eq_refl eq_refl) as [_ Hadd].
  rewrite Hadd by (vm_compute; reflexivity).
  repeat split.
Defined.

(** C10: with no subscriber, [broadcast] changes nothing and returns; an
    [add_detection] request then stores the event and answers
    [{"status": "success"}] (the table not having run out of rowids). *)
Theorem add_detection_without_clients :
  forall (w : world) (confidence : float) (now : clock),
    active_connections (manager w) = [] ->
    largest_rowid (waste_db w) < max_rowid ->
    (forall m, broadcast m (manager w) = (Return tt, manager w))
    /\ add_detection confidence now w =
         (Return {| status := "success" |},
          {| waste_db :=
               {| detections := detections (waste_db w) ++
                    [{| id := largest_rowid (waste_db w) + 1;
                        detection_time := at_insert now;
                        item_type := Some "organic";
                        confidence := bind_double confidence |}];
                  sqlite_sequence := largest_rowid (waste_db w) + 1 |};
             manager := manager w |}).
Proof.
  intros w confidence now Hnone Hroom. split.
  - intros m. rewrite broadcast_spec.
    destruct (manager w) as [conns open log]. simpl in *. subst conns.
    simpl. now rewrite app_nil_r.
  - rewrite add_detection_stored by assumption.
    destruct (manager w) as [conns open log]. simpl in *. subst conns.
    simpl. now rewrite app_nil_r.
Qed.

Lemma add_detection_without_clients_witness :
  add_detection 0.75%float (instant at_2025_03_15_22_30_00) fresh_world =
    (Return {| status := "success" |},
     {| waste_db :=
          {| detections :=
               [{| id := 1; detection_time := at_2025_03_15_22_30_00;
                   item_type := Some "organic"; confidence := Some 0.75%float |}];
             sqlite_sequence := 1 |};
        manager := no_client |}).
Proof.
  exact (proj2 (add_detection_without_clients fresh_world 0.75%float
                  (instant at_2025_03_15_22_30_00) eq_refl eq_refl)).
Defined.

(** ** Appending *)

(** C6: an [add_detection] request that succeeds adds exactly one row, whose
    id is greater than every id in the table and than the last id the table
    ever handed out; and the request does succeed whenever rowids are left
    and every subscriber is reachable. *)
Theorem add_detection_appends_with_greater_id :
  forall (w : world) (confidence : float) (now : clock),
    (forall r w',
        add_detection confidence now w = (Return r, w') ->
        exists row,
          detections (waste_db w') = detections (waste_db w) ++ [row]
          /\ COUNT (detections (waste_db w')) = COUNT (detections (waste_db w)) + 1
          /\ Forall (fun old => id old < id row) (detections (waste_db w))
          /\ sqlite_sequence (waste_db w) < id row)
    /\ (largest_rowid (waste_db w) < max_rowid ->
        forallb (is_open (manager w)) (active_connections (manager w)) = true ->
        exists w', add_detection confidence now w = (Return {| status := "success" |}, w')).
Proof.
  intros w confidence now. split.
  - intros r w' Hrun.
    destruct (Z_lt_le_dec (largest_rowid (waste_db w)) max_rowid) as [Hroom|Hfull].
    + rewrite add_detection_stored in Hrun by assumption.
      injection Hrun as _ Hw'. subst w'. simpl.
      eexists. split; [reflexivity|].
      destruct (largest_rowid_bounds (waste_db w)) as [Hseq Hrows].
      split; [|split].
      * unfold COUNT. rewrite length_app. simpl. lia.
      * eapply Forall_impl; [|exact Hrows]. simpl. intros; lia.
      * simpl. lia.
    + rewrite add_detection_full in Hrun by assumption. discriminate Hrun.
  - intros Hroom Hall. rewrite add_detection_stored, Hall by assumption.
    eexists. reflexivity.
Qed.

Lemma add_detection_appends_with_greater_id_witness :
  exists w',
    add_detection 0.9%float (instant at_2025_03_15_22_30_00) two_rows_one_client
      = (Return {| status := "success" |}, w')
    /\ map id (detections (waste_db w')) = [4; 9; 12].
Proof.
  destruct (proj2 (add_detection_appends_with_greater_id two_rows_one_client
                     0.9%float (instant at_2025_03_15_22_30_00)) eq_refl eq_refl)
    as [w' Hrun].
  exists w'. split; [exact Hrun|].
  destruct (proj1 (add_detection_appends_with_greater_id two_rows_one_client
                     0.9%float (instant at_2025_03_15_22_30_00)) _ _ Hrun)
    as [row [Hrows _]].
  assert (Hw' : w' = snd (add_detection 0.9%float (instant at_2025_03_15_22_30_00)
                            two_rows_one_client)) by (now rewrite Hrun).
  rewrite Hw'. reflexivity.
Defined.

(** C7 fails on the code: the [CHECK] lets a [NULL] category through, and
    the row is stored. *)
Lemma null_category_is_stored :
  insert None (Some 0.5%float) at_2025_01_01_00_00_00 empty_db
    = (inr 1,
       {| detections :=
            [{| id := 1; detection_time := at_2025_01_01_00_00_00;
                item_type := None; confidence := Some 0.5%float |}];
          sqlite_sequence := 1 |})
  /\ ~ append_rejects_every_other_category.
Proof.
  split; [reflexivity|].
  intros Hclaim.
  destruct (Hclaim empty_db None (Some 0.5%float) at_2025_01_01_00_00_00)
    as [e He]; discriminate.
Qed.

(** C7 (amended): an insert whose category is a text other than ['organic']
    fails and leaves the table as it was; the failure is the violated
    [CHECK] constraint when a rowid is left, and the full table otherwise.
    A [NULL] category is not rejected: with a rowid left, the row is
    stored. *)
Theorem insert_rejects_unknown_category :
  forall (d : db) (conf : option float) (now : datetime),
    (forall category : string,
        category <> "organic" ->
        insert (Some category) conf now d =
          (inl (if max_rowid <=? largest_rowid d then DatabaseFull else IntegrityError),
           d)
        /\ COUNT (detections (snd (insert (Some category) conf now d)))
           = COUNT (detections d))
    /\ (largest_rowid d < max_rowid ->
        fst (insert None conf now d) = inr (largest_rowid d + 1)
        /\ COUNT (detections (snd (insert None conf now d)))
           = COUNT (detections d) + 1).
Proof.
  intros d conf now. split.
  - intros category Hother.
    assert (Hcheck : check_item_type (Some category) = false)
      by (cbn [check_item_type]; now apply String.eqb_neq).
    unfold insert. rewrite Hcheck. cbn [negb].
    destruct (max_rowid <=? largest_rowid d); split; reflexivity.
  - intros Hroom. unfold insert.
    destruct (Z.leb_spec max_rowid (largest_rowid d)) as [Hfull|_]; [lia|].
    cbn [check_item_type negb fst snd detections]. split; [reflexivity|].
    unfold COUNT. rewrite length_app. cbn [List.length]. lia.
Qed.

Lemma insert_rejects_unknown_category_witness :
  insert (Some "plastic") (Some 0.5%float) at_2025_01_01_00_00_00 empty_db
    = (inl IntegrityError, empty_db)
  /\ fst (insert None (Some 0.5%float) at_2025_01_01_00_00_00 empty_db) = inr 1.
Proof.
  split.
  - apply (proj1 (insert_rejects_unknown_category empty_db (Some 0.5%float)
                    at_2025_01_01_00_00_00) "plastic").
    discriminate.
  - apply (proj2 (insert_rejects_unknown_category empty_db (Some 0.5%float)
                    at_2025_01_01_00_00_00)).
    reflexivity.
Defined.

(** ** [get_stats] *)

(** Without a row for the current day the daily aggregate row is
    [(0, NULL)], and [get_stats] passes the [NULL] on as [None]. *)
Lemma get_stats_no_event_today hours now now_hourly d :
  today now d = [] ->
  daily_total (get_stats hours now now_hourly d) = 0
  /\ daily_avg_confidence (get_stats hours now now_hourly d) = None
  /\ compost_kg (get_stats hours now now_hourly d) = 0%float.
Proof.
  intros Hnone. unfold get_stats. rewrite Hnone. repeat split.
Qed.

(** C2 (the code differs): on an empty store [get_stats] reports a count of
    0 and 0 kg, and [None], not 0, as the daily average confidence. *)
Theorem get_stats_empty_store_average_is_none :
  forall (hours : Z) (now_daily now_hourly : datetime),
    get_stats hours now_daily now_hourly empty_db =
      {| daily_total := 0;
         daily_avg_confidence := None;
         compost_kg := 0%float;
         hourly_data := [] |}.
Proof. intros hours now_daily now_hourly. reflexivity. Qed.

(** C3 (the code differs): [get_stats] never reads [hours].  Asked at
    22:30:00 for a window of one hour, it still reports the event of
    20:30:00, which the trailing hour does not contain. *)
Theorem get_stats_ignores_hours :
  (forall (h1 h2 : Z) (now_daily now_hourly : datetime) (d : db),
      get_stats h1 now_daily now_hourly d = get_stats h2 now_daily now_hourly d)
  /\ hourly_data (get_stats 1 at_2025_03_15_22_30_00 at_2025_03_15_22_30_00
                    one_event_at_20_30) =
       [{| hour := "20"; count := 1; hourly_confidence := 0.5%float |}]
  /\ trailing_window 1 at_2025_03_15_22_30_00 one_event_at_20_30 = [].
Proof.
  split; [reflexivity|]. split; vm_compute; reflexivity.
Qed.

(** ** Calendar fields and their text *)

Lemma hour_of_bounds (t : Z) : 0 <= hour_of t < 24.
Proof.
  unfold hour_of, seconds_per_day.
  pose proof (Z.mod_pos_bound t 86400 ltac:(lia)) as Hsec.
  split.
  - apply Z.div_pos; lia.
  - apply Z.div_lt_upper_bound; lia.
Qed.

Lemma day_of_era_bounds (z : Z) : 0 <= z - z / 146097 * 146097 < 146097.
Proof.
  pose proof (Z.mod_pos_bound z 146097 ltac:(lia)) as Hmod.
  rewrite Z.mod_eq in Hmod by lia. lia.
Qed.

Lemma day_of_year_bounds (doe : Z) :
  0 <= doe < 146097 ->
  0 <= doe - (365 * ((doe - doe / 1460 + doe / 36524 - doe / 146096) / 365)
              + (doe - doe / 1460 + doe / 36524 - doe / 146096) / 365 / 4
              - (doe - doe / 1460 + doe / 36524 - doe / 146096) / 365 / 100) <= 365.
Proof. intros Hdoe. Z.div_mod_to_equations. lia. Qed.

Lemma month_of_bounds (t : Z) : 1 <= month_of t <= 12.
Proof.
  unfold month_of, civil_from_days. cbv zeta.
  set (z := t / seconds_per_day + 719468).
  pose proof (day_of_era_bounds z) as Hdoe.
  set (doe := z - z / 146097 * 146097) in *.
  pose proof (day_of_year_bounds doe Hdoe) as Hdoy.
  set (doy := doe - _) in *.
  assert (Hmp : 0 <= (5 * doy + 2) / 153 <= 11).
  { split; [apply Z.div_pos; lia|].
    apply Z.lt_succ_r. apply Z.div_lt_upper_bound; lia. }
  destruct ((5 * doy + 2) / 153 <? 10) eqn:E.
  - apply Z.ltb_lt in E. lia.
  - apply Z.ltb_ge in E. lia.
Qed.

Lemma small_cases_24 (h : Z) :
  0 <= h < 24 ->
  In h [0; 1; 2; 3; 4; 5; 6; 7; 8; 9; 10; 11; 12; 13; 14; 15; 16; 17; 18;
        19; 20; 21; 22; 23].
Proof. intros Hh. simpl. lia. Qed.

Lemma two_digits_hour_label (h : Z) :
  0 <= h < 24 -> In (two_digits h) hour_labels.
Proof.
  intros Hh. apply small_cases_24 in Hh. simpl in Hh.
  repeat (destruct Hh as [<- | Hh]; [vm_compute; tauto|]).
  contradiction.
Qed.

Lemma cast_two_digits_month (m : Z) :
  1 <= m <= 12 -> cast_integer (two_digits m) = m.
Proof.
  intros Hm.
  assert (Hcases : In m [1; 2; 3; 4; 5; 6; 7; 8; 9; 10; 11; 12]) by (simpl; lia).
  simpl in Hcases.
  repeat (destruct Hcases as [<- | Hcases]; [reflexivity|]).
  contradiction.
Qed.

(** On months, the two-digit text and the number determine each other. *)
Lemma two_digits_month_eqb (m n : Z) :
  1 <= m <= 12 -> 1 <= n <= 12 ->
  String.eqb (two_digits m) (two_digits n) = (n =? m).
Proof.
  intros Hm Hn. destruct (Z.eqb_spec n m) as [->|Hne].
  - apply String.eqb_refl.
  - apply String.eqb_neq. intros Heq. apply Hne.
    rewrite <- (cast_two_digits_month m), <- (cast_two_digits_month n) by assumption.
    now rewrite Heq.
Qed.

Lemma digit_inj (a b : Z) : digit a = digit b -> a mod 10 = b mod 10.
Proof.
  unfold digit.
  pose proof (Z.mod_pos_bound a 10 ltac:(lia)) as Ha.
  pose proof (Z.mod_pos_bound b 10 ltac:(lia)) as Hb.
  intros Heq. apply (f_equal nat_of_ascii) in Heq.
  rewrite !nat_ascii_embedding in Heq by lia.
  lia.
Qed.

(** Within the years SQLite can print, ['%Y'] reads ['2025'] exactly in 2025. *)
Lemma four_digits_2025 (y : Z) :
  0 <= y <= 9999 -> (String.eqb (four_digits y) "2025" = (y =? 2025)).
Proof.
  intros Hy. destruct (Z.eqb_spec y 2025) as [->|Hne].
  - reflexivity.
  - apply String.eqb_neq. intros Heq. apply Hne.
    unfold four_digits, two_digits in Heq.
    injection Heq as H3 H2 H1 H0.
    change "2"%char with (digit 2) in H3, H1.
    change "0"%char with (digit 0) in H2.
    change "5"%char with (digit 5) in H0.
    apply digit_inj in H3, H2, H1, H0.
    Z.div_mod_to_equations. lia.
Qed.

Lemma in_2025_year (r : detection) :
  in_2025 r = (year_of (unix (detection_time r)) =? 2025).
Proof.
  unfold in_2025, strftime_Y.
  apply four_digits_2025.
  pose proof (unix_in_range (detection_time r)) as Hrange.
  unfold year_in_range in Hrange.
  apply andb_prop in Hrange as [Hlo Hhi].
  apply Z.leb_le in Hlo, Hhi. lia.
Qed.

(** ** [GROUP BY] *)

Lemma string_lt_trans (a b c : string) :
  String.compare a b = Lt -> String.compare b c = Lt -> String.compare a c = Lt.
Proof.
  intros Hab Hbc.
  apply OrderedTypeEx.String_as_OT.cmp_lt.
  apply OrderedTypeEx.String_as_OT.cmp_lt in Hab, Hbc.
  eapply OrderedTypeEx.String_as_OT.lt_trans; eassumption.
Qed.

Lemma string_compare_refl (a : string) : String.compare a a = Eq.
Proof. now apply OrderedTypeEx.String_as_OT.cmp_eq. Qed.

Lemma string_lt_neq (a b : string) :
  String.compare a b = Lt -> String.eqb a b = false.
Proof.
  intros Hlt. apply String.eqb_neq. intros ->.
  rewrite string_compare_refl in Hlt. discriminate.
Qed.

Lemma string_gt_lt (a b : string) :
  String.compare a b = Gt -> String.compare b a = Lt.
Proof.
  intros Hgt. rewrite String.compare_antisym, Hgt. reflexivity.
Qed.

Section GroupByFacts.
Context {A : Type} (key : A -> string).
Implicit Types (gs : list (string * list A)) (rows : list A).

Lemma group_insert_keys k a gs k' :
  In k' (map fst (group_insert k a gs)) -> k' = k \/ In k' (map fst gs).
Proof.
  induction gs as [|[k0 g0] rest IH]; simpl.
  - intros [<-|[]]. now left.
  - destruct (String.compare k k0) eqn:E; simpl.
    + tauto.
    + intros [<-|H]; tauto.
    + intros [<-|H]; [tauto|]. apply IH in H. tauto.
Qed.

Lemma group_insert_sorted k a gs :
  StronglySorted key_lt gs -> StronglySorted key_lt (group_insert k a gs).
Proof.
  induction gs as [|[k0 g0] rest IH]; simpl; intros Hsorted.
  - repeat constructor.
  - apply StronglySorted_inv in Hsorted as [Hrest Hhead].
    destruct (String.compare k k0) eqn:E.
    + constructor; [assumption|].
      eapply Forall_impl; [|exact Hhead]. intros; assumption.
    + constructor; [constructor; assumption|].
      constructor; [exact E|].
      eapply Forall_impl; [|exact Hhead].
      intros kg Hkg. unfold key_lt in *. simpl in *.
      eapply string_lt_trans; eassumption.
    + constructor; [now apply IH|].
      apply Forall_forall. intros [k1 g1] Hin.
      assert (Hkey : In k1 (map fst (group_insert k a rest)))
        by (apply in_map_iff; exists (k1, g1); auto).
      apply group_insert_keys in Hkey as [->|Hkey].
      * unfold key_lt. simpl. now apply string_gt_lt.
      * apply in_map_iff in Hkey as [[k2 g2] [Hfst Hin2]]. simpl in Hfst. subst k2.
        rewrite Forall_forall in Hhead. exact (Hhead _ Hin2).
Qed.

Lemma group_insert_nonempty k a gs :
  Forall (fun kg => snd kg <> []) gs ->
  Forall (fun kg => snd kg <> []) (group_insert k a gs).
Proof.
  induction gs as [|[k0 g0] rest IH]; simpl; intros Hne.
  - repeat constructor. discriminate.
  - inversion Hne as [|? ? Hg0 Hrest]; subst.
    destruct (String.compare k k0).
    + constructor; [|assumption]. simpl. now destruct g0.
    + constructor; [simpl; discriminate | assumption].
    + constructor; [assumption | now apply IH].
Qed.

Lemma group_insert_filed k a gs k' :
  filed_under k' (group_insert k a gs) =
    (filed_under k' gs + (if String.eqb k k' then 1 else 0))%nat.
Proof.
  unfold filed_under.
  induction gs as [|[k0 g0] rest IH]; simpl.
  - destruct (String.eqb k k'); reflexivity.
  - destruct (String.compare k k0) eqn:E; simpl.
    + apply String.compare_eq_iff in E. subst k0.
      destruct (String.eqb k k'); simpl; [|lia].
      rewrite !length_app. simpl. lia.
    + destruct (String.eqb k k'), (String.eqb k0 k'); simpl;
        rewrite ?length_app; simpl; lia.
    + destruct (String.eqb k0 k'); simpl; rewrite ?length_app, IH; lia.
Qed.

Lemma group_by_snoc rows r :
  group_by key (rows ++ [r]) = group_insert (key r) r (group_by key rows).
Proof. unfold group_by. now rewrite fold_left_app. Qed.

(** The groups come out in ascending key order, without repetition. *)
Lemma group_by_sorted rows : StronglySorted key_lt (group_by key rows).
Proof.
  induction rows as [|r rows IH] using rev_ind.
  - constructor.
  - rewrite group_by_snoc. now apply group_insert_sorted.
Qed.

(** No group is empty. *)
Lemma group_by_nonempty rows :
  Forall (fun kg => snd kg <> []) (group_by key rows).
Proof.
  induction rows as [|r rows IH] using rev_ind.
  - constructor.
  - rewrite group_by_snoc. now apply group_insert_nonempty.
Qed.

(** Every key is the key of a row. *)
Lemma group_by_keys rows k :
  In k (map fst (group_by key rows)) -> exists r, In r rows /\ key r = k.
Proof.
  induction rows as [|r rows IH] using rev_ind.
  - intros [].
  - rewrite group_by_snoc. intros Hin.
    apply group_insert_keys in Hin as [->|Hin].
    + exists r. split; [apply in_or_app; right; now left | reflexivity].
    + destruct (IH Hin) as [r' [Hr' Hk]].
      exists r'. split; [apply in_or_app; now left | assumption].
Qed.

(** As many rows are filed under a key as have it. *)
Lemma group_by_filed rows k :
  filed_under k (group_by key rows) =
    List.length (filter (fun r => String.eqb (key r) k) rows).
Proof.
  induction rows as [|r rows IH] using rev_ind.
  - reflexivity.
  - rewrite group_by_snoc, group_insert_filed, IH, filter_app, length_app.
    simpl. destruct (String.eqb (key r) k); reflexivity.
Qed.

End GroupByFacts.

Section GroupLookup.
Context {A : Type} (key : A -> string).
Implicit Types (gs : list (string * list A)) (rows : list A).

Lemma sorted_filter_key gs k :
  StronglySorted key_lt gs ->
  filter (fun kg => String.eqb (fst kg) k) gs = [] \/
  exists g, filter (fun kg => String.eqb (fst kg) k) gs = [(k, g)].
Proof.
  induction 1 as [|[k0 g0] rest Hrest IH Hhead]; simpl.
  - now left.
  - destruct (String.eqb k0 k) eqn:E; [|exact IH].
    apply String.eqb_eq in E. subst k0. right. exists g0. f_equal.
    clear IH Hrest. induction rest as [|[k1 g1] rest IH]; [reflexivity|].
    inversion Hhead as [|? ? Hlt Htail]; subst. simpl.
    unfold key_lt in Hlt. simpl in Hlt.
    apply string_lt_neq in Hlt. rewrite String.eqb_sym, Hlt.
    now apply IH.
Qed.

(** What [GROUP BY] holds for one key: nothing when no row has the key,
    else one group with as many rows as have it. *)
Lemma group_by_lookup rows k :
  (filter (fun kg => String.eqb (fst kg) k) (group_by key rows) = []
   /\ filter (fun r => String.eqb (key r) k) rows = [])
  \/ (exists g,
        filter (fun kg => String.eqb (fst kg) k) (group_by key rows) = [(k, g)]
        /\ g <> []
        /\ List.length g = List.length (filter (fun r => String.eqb (key r) k) rows)).
Proof.
  pose proof (group_by_filed key rows k) as Hfiled. unfold filed_under in Hfiled.
  destruct (sorted_filter_key (group_by key rows) k (group_by_sorted key rows))
    as [Hnone | [g Hone]].
  - left. split; [assumption|].
    rewrite Hnone in Hfiled. simpl in Hfiled.
    now apply length_zero_iff_nil.
  - right. exists g. split; [assumption|].
    rewrite Hone in Hfiled. simpl in Hfiled. rewrite app_nil_r in Hfiled.
    split; [|assumption].
    assert (Hin : In (k, g) (group_by key rows)).
    { eapply (proj1 (filter_In _ _ _)). rewrite Hone. now left. }
    pose proof (group_by_nonempty key rows) as Hne.
    rewrite Forall_forall in Hne. exact (Hne _ Hin).
Qed.

(** The group of a key that occurs in the result. *)
Lemma group_by_member rows k g :
  In (k, g) (group_by key rows) ->
  g <> [] /\
  List.length g = List.length (filter (fun r => String.eqb (key r) k) rows).
Proof.
  intros Hin.
  assert (Hfil : In (k, g) (filter (fun kg => String.eqb (fst kg) k) (group_by key rows))).
  { apply filter_In. split; [assumption|]. simpl. apply String.eqb_refl. }
  destruct (group_by_lookup rows k) as [[Hnone _] | [g' [Hone [Hne Hlen]]]].
  - rewrite Hnone in Hfil. destruct Hfil.
  - rewrite Hone in Hfil. destruct Hfil as [Heq|[]].
    injection Heq as <-. now split.
Qed.

End GroupLookup.

Lemma StronglySorted_map {A B : Type} (R : A -> A -> Prop) (R' : B -> B -> Prop)
    (f : A -> B) (l : list A) :
  (forall a b, R a b -> R' (f a) (f b)) ->
  StronglySorted R l -> StronglySorted R' (map f l).
Proof.
  intros Hmono. induction 1 as [|a l Hl IH Hhead]; simpl; constructor.
  - exact IH.
  - apply Forall_map. eapply Forall_impl; [|exact Hhead]. intros b. apply Hmono.
Qed.

(** ** The hourly breakdown *)

(** The entries of [hourly_data] are the groups of the hourly query. *)
Lemma hourly_data_groups hours now_daily now d :
  hourly_data (get_stats hours now_daily now d) =
    map (fun kg => {| hour := fst kg;
                      count := COUNT (snd kg);
                      hourly_confidence := float_or_0 (AVG (map confidence (snd kg))) |})
        (group_by (fun r => strftime_H (detection_time r)) (last_24_hours now d)).
Proof.
  unfold get_stats, hourly. cbn [hourly_data]. rewrite map_map.
  apply map_ext. now intros [k g].
Qed.

(** C8: every entry of the hourly breakdown counts at least one event (the
    events of the window that carry its label), every label is one of
    ["00"] to ["23"], and the entries are in ascending order of label. *)
Theorem hourly_data_sparse_labelled_ascending :
  forall (hours : Z) (now_daily now : datetime) (d : db),
    Forall (fun e =>
              1 <= count e
              /\ count e = COUNT (filter (fun r => String.eqb (strftime_H (detection_time r))
                                                             (hour e))
                                         (last_24_hours now d))
              /\ In (hour e) hour_labels)
           (hourly_data (get_stats hours now_daily now d))
    /\ StronglySorted (fun a b => String.ltb (hour a) (hour b) = true)
                      (hourly_data (get_stats hours now_daily now d)).
Proof.
  intros hours now_daily now d. rewrite hourly_data_groups. split.
  - apply Forall_map. apply Forall_forall. intros [k g] Hin.
    cbn [hour count fst snd].
    destruct (group_by_member _ _ _ _ Hin) as [Hne Hlen].
    split; [|split].
    + unfold COUNT. destruct g; [contradiction | cbn [List.length]; lia].
    + unfold COUNT. now rewrite Hlen.
    + destruct (group_by_keys (fun r => strftime_H (detection_time r))
                  (last_24_hours now d) k) as [r [_ Hkey]].
      { apply in_map_iff. exists (k, g). auto. }
      subst k. apply two_digits_hour_label. apply hour_of_bounds.
  - eapply StronglySorted_map; [|apply group_by_sorted].
    intros a b Hlt. cbn [hour]. unfold String.ltb, key_lt in *. now rewrite Hlt.
Qed.

(** ** [ORDER BY] and [LEFT JOIN] *)

Lemma order_insert_last {A : Type} (key : A -> Z) (a : A) (l : list A) :
  Forall (fun b => key b <= key a) l -> order_insert key a l = l ++ [a].
Proof.
  induction 1 as [|b l Hb Hl IH]; simpl; [reflexivity|].
  destruct (key b <=? key a) eqn:E; [now rewrite IH|].
  apply Z.leb_gt in E. lia.
Qed.

Lemma order_by_from {A : Type} (key : A -> Z) (l : list A) : forall acc,
  StronglySorted (fun a b => key a <= key b) l ->
  Forall (fun b => Forall (fun a => key b <= key a) l) acc ->
  fold_left (fun acc a => order_insert key a acc) l acc = acc ++ l.
Proof.
  induction l as [|a l IH]; intros acc Hsorted Hacc; simpl.
  - now rewrite app_nil_r.
  - apply StronglySorted_inv in Hsorted as [Hl Ha].
    rewrite order_insert_last.
    + rewrite IH; [now rewrite <- app_assoc | assumption |].
      apply Forall_app. split.
      * eapply Forall_impl; [|exact Hacc].
        intros b Hb. now inversion Hb.
      * constructor; [assumption | constructor].
    + eapply Forall_impl; [|exact Hacc].
      intros b Hb. now inversion Hb.
Qed.

(** [ORDER BY] returns rows that already are in order as they are. *)
Lemma order_by_sorted {A : Type} (key : A -> Z) (l : list A) :
  StronglySorted (fun a b => key a <= key b) l -> order_by key l = l.
Proof.
  intros Hsorted. unfold order_by.
  now rewrite order_by_from by (assumption || constructor).
Qed.

(** A left join in which every left row has one partner at most. *)
Lemma left_join_single {A B : Type} (on : A -> B -> bool) (r : list B)
    (partner : A -> option B) (l : list A) :
  (forall a, In a l ->
     filter (on a) r = match partner a with Some b => [b] | None => [] end) ->
  left_join on l r = map (fun a => (a, partner a)) l.
Proof.
  unfold left_join. induction l as [|a l IH]; intros Hone; [reflexivity|].
  cbn [flat_map]. rewrite map_cons.
  rewrite (Hone a) by now left.
  rewrite IH by (intros; apply Hone; now right).
  now destruct (partner a).
Qed.

Lemma filter_filter {A : Type} (p q : A -> bool) (l : list A) :
  filter p (filter q l) = filter (fun x => q x && p x) l.
Proof.
  induction l as [|x l IH]; simpl; [reflexivity|].
  destruct (q x); simpl; [destruct (p x)|]; now rewrite IH.
Qed.

(** ** The monthly breakdown *)

Lemma months_range (m : Z * string) : In m months -> 1 <= fst m <= 12.
Proof.
  unfold months. simpl.
  intros H. repeat (destruct H as [<- | H]; [simpl; lia|]). contradiction.
Qed.

Lemma months_sorted : StronglySorted (fun a b : Z * string => fst a <= fst b) months.
Proof.
  unfold months. repeat (constructor; [|repeat constructor; simpl; lia]).
  constructor.
Qed.

(** The rows of 2025 whose ['%m'] text is that of month [n]. *)
Lemma rows_with_month_text (d : db) (n : Z) :
  1 <= n <= 12 ->
  filter (fun r => String.eqb (strftime_m (detection_time r)) (two_digits n))
         (filter in_2025 (detections d))
  = events_of_month_2025 d n.
Proof.
  intros Hn. rewrite filter_filter. unfold events_of_month_2025.
  apply filter_ext. intros r. rewrite in_2025_year. f_equal.
  unfold strftime_m.
  rewrite two_digits_month_eqb by (apply month_of_bounds || assumption).
  apply Z.eqb_sym.
Qed.

(** The partner of a month in [detections_by_month]. *)
Lemma detections_by_month_partner (d : db) (m : Z * string) :
  1 <= fst m <= 12 ->
  filter (fun b : Z * Z => fst m =? fst b) (detections_by_month d) =
    match joined_count d m with Some b => [b] | None => [] end.
Proof.
  intros Hm. unfold detections_by_month, joined_count.
  set (key := fun r => strftime_m (detection_time r)).
  set (rows := filter in_2025 (detections d)).
  rewrite filter_map_swap.
  rewrite (filter_ext_in _ (fun kg => String.eqb (fst kg) (two_digits (fst m)))).
  2:{ intros [k g] Hin. cbn [fst].
      destruct (group_by_keys key rows k) as [r [_ Hk]].
      { apply in_map_iff. exists (k, g). auto. }
      subst k. unfold key, strftime_m.
      pose proof (month_of_bounds (unix (detection_time r))) as Hr.
      rewrite cast_two_digits_month, two_digits_month_eqb by assumption.
      reflexivity. }
  assert (Hrows : filter (fun r => String.eqb (key r) (two_digits (fst m))) rows
                  = events_of_month_2025 d (fst m))
    by (now apply rows_with_month_text).
  destruct (group_by_lookup key rows (two_digits (fst m)))
    as [[Hnone Hempty] | [g [Hone [Hne Hlen]]]].
  - rewrite Hnone. rewrite Hempty in Hrows.
    rewrite <- Hrows. reflexivity.
  - rewrite Hone. rewrite Hrows in Hlen.
    cbn [map]. rewrite cast_two_digits_month by assumption.
    unfold COUNT. rewrite <- Hlen.
    destruct g as [|x g]; [contradiction|]. reflexivity.
Qed.

(** The whole answer, month by month. *)
Lemma get_monthly_detections_entries (d : db) :
  get_monthly_detections d = map (monthly_entry d) months.
Proof.
  unfold get_monthly_detections.
  rewrite (left_join_single _ _ (joined_count d)).
  2:{ intros m Hm. apply detections_by_month_partner. now apply months_range. }
  rewrite order_by_sorted.
  2:{ eapply StronglySorted_map; [|exact months_sorted].
      intros a b Hab. exact Hab. }
  rewrite map_map. apply map_ext. intros m.
  unfold monthly_entry, joined_count.
  destruct (Z.eqb_spec (COUNT (events_of_month_2025 d (fst m))) 0) as [Hz|Hnz].
  - cbn [option_map COALESCE fst snd]. now rewrite Hz.
  - reflexivity.
Qed.

Example get_monthly_detections_around_new_year :
  get_monthly_detections around_new_year =
    [ {| month_name := "Janvier"; detection_count := 1; masse := 100 |};
      {| month_name := "Février"; detection_count := 0; masse := 0 |};
      {| month_name := "Mars"; detection_count := 2; masse := 200 |};
      {| month_name := "Avril"; detection_count := 0; masse := 0 |};
      {| month_name := "Mai"; detection_count := 0; masse := 0 |};
      {| month_name := "Juin"; detection_count := 0; masse := 0 |};
      {| month_name := "Juillet"; detection_count := 0; masse := 0 |};
      {| month_name := "Août"; detection_count := 0; masse := 0 |};
      {| month_name := "Septembre"; detection_count := 0; masse := 0 |};
      {| month_name := "Octobre"; detection_count := 0; masse := 0 |};
      {| month_name := "Novembre"; detection_count := 0; masse := 0 |};
      {| month_name := "Décembre"; detection_count := 0; masse := 0 |} ].
Proof. vm_compute. reflexivity. Qed.

Example get_stats_around_new_year :
  get_stats 24 at_2025_03_15_22_30_00 at_2025_03_15_22_30_00 around_new_year =
    {| daily_total := 2;
       daily_avg_confidence := Some 0.75%float;
       compost_kg := 0.2%float;
       hourly_data :=
         [ {| hour := "20"; count := 1; hourly_confidence := 0.75%float |};
           {| hour := "22"; count := 1; hourly_confidence := 0%float |} ] |}.
Proof. vm_compute. reflexivity. Qed.

(** C5: the monthly breakdown has twelve entries, the i-th for the i-th
    row of [months] (months 1 to 12, January to December); each carries
    [masse = detection_count * 100], and a month without event reports 0
    for both. *)
Theorem monthly_breakdown_twelve_entries :
  forall (d : db),
    List.length (get_monthly_detections d) = 12%nat
    /\ map fst months = [1; 2; 3; 4; 5; 6; 7; 8; 9; 10; 11; 12]
    /\ map month_name (get_monthly_detections d) = map snd months
    /\ Forall (fun e => masse e = detection_count e * 100) (get_monthly_detections d)
    /\ (forall i n name,
           nth_error months i = Some (n, name) ->
           events_of_month_2025 d n = [] ->
           nth_error (get_monthly_detections d) i =
             Some {| month_name := name; detection_count := 0; masse := 0 |}).
Proof.
  intros d. rewrite get_monthly_detections_entries.
  split; [|split; [reflexivity|split; [|split]]].
  - now rewrite length_map.
  - rewrite map_map. reflexivity.
  - apply Forall_map. apply Forall_forall. intros m _. reflexivity.
  - intros i n name Hi Hnone.
    rewrite nth_error_map, Hi. cbn [option_map].
    unfold monthly_entry. cbn [fst snd]. now rewrite Hnone.
Qed.

Lemma monthly_breakdown_twelve_entries_witness :
  nth_error (get_monthly_detections around_new_year) 1 =
    Some {| month_name := "Février"; detection_count := 0; masse := 0 |}.
Proof.
  apply (proj2 (proj2 (proj2 (proj2
           (monthly_breakdown_twelve_entries around_new_year))))
           1%nat 2 "Février");
    reflexivity.
Defined.

(** C9: the month names are the French ones, and the count of a month is
    the number of stored events of that month of 2025; an event of any
    other year changes no entry. *)
Theorem monthly_breakdown_counts_2025_only :
  forall (d : db),
    map month_name (get_monthly_detections d) =
      [ "Janvier"; "Février"; "Mars"; "Avril"; "Mai"; "Juin"; "Juillet";
        "Août"; "Septembre"; "Octobre"; "Novembre"; "Décembre" ]
    /\ map detection_count (get_monthly_detections d) =
         map (fun n => COUNT (events_of_month_2025 d n))
             [1; 2; 3; 4; 5; 6; 7; 8; 9; 10; 11; 12]
    /\ (forall r,
           year_of (unix (detection_time r)) <> 2025 ->
           get_monthly_detections
             {| detections := detections d ++ [r];
                sqlite_sequence := sqlite_sequence d |}
           = get_monthly_detections d).
Proof.
  intros d. rewrite get_monthly_detections_entries.
  split; [reflexivity|]. split; [reflexivity|].
  intros r Hyear. rewrite get_monthly_detections_entries.
  apply map_ext. intros m. unfold monthly_entry, events_of_month_2025.
  cbn [detections]. rewrite filter_app. cbn [filter].
  apply Z.eqb_neq in Hyear. rewrite Hyear. cbn [andb].
  now rewrite app_nil_r.
Qed.

Lemma monthly_breakdown_counts_2025_only_witness :
  get_monthly_detections
    {| detections := detections around_new_year ++
         [{| id := 5; detection_time := at_2024_12_31_23_59_59;
             item_type := Some "organic"; confidence := Some 1%float |}];
       sqlite_sequence := 4 |}
  = get_monthly_detections around_new_year.
Proof.
  apply (proj2 (proj2 (monthly_breakdown_counts_2025_only around_new_year))
           {| id := 5; detection_time := at_2024_12_31_23_59_59;
              item_type := Some "organic"; confidence := Some 1%float |}).
  vm_compute. discriminate.
Defined.

(** * Further properties of the handlers *)

(** ** The connection handler *)

Lemma list_remove_some_split (ws : WebSocket) (l l' : list WebSocket) :
  list_remove ws l = Some l' ->
  exists l1 l2, l = l1 ++ ws :: l2 /\ l' = l1 ++ l2 /\ ~ In ws l1.
Proof.
  revert l'. induction l as [|x l IH]; cbn [list_remove]; intros l' H; [discriminate|].
  destruct (Nat.eqb x ws) eqn:E.
  - apply Nat.eqb_eq in E. subst x. injection H as <-.
    exists [], l. repeat split. intros [].
  - destruct (list_remove ws l) as [l0|] eqn:Hl; [|discriminate].
    injection H as <-.
    destruct (IH l0 eq_refl) as [l1 [l2 [-> [-> Hnot]]]].
    exists (x :: l1), l2. repeat split.
    intros [Heq|Hin]; [|tauto]. subst x. rewrite Nat.eqb_refl in E. discriminate.
Qed.

Lemma list_remove_after_append (ws : WebSocket) (l : list WebSocket) :
  exists l', list_remove ws (l ++ [ws]) = Some l'
             /\ List.length l' = List.length l.
Proof.
  induction l as [|x l [l' [Hl' Hlen]]]; cbn [app list_remove].
  - rewrite Nat.eqb_refl. now exists [].
  - destruct (Nat.eqb x ws).
    + exists (l ++ [ws]). split; [reflexivity|].
      rewrite length_app. cbn [List.length]. lia.
    + rewrite Hl'. exists (x :: l'). split; [reflexivity|].
      cbn [List.length]. now rewrite Hlen.
Qed.

Lemma receive_loop_until_bytes ws texts b rest w :
  receive_loop ws (map Text texts ++ Bytes b :: rest) w = (Raise KeyError, w).
Proof. induction texts as [|s texts IH]; [reflexivity | exact IH]. Qed.

(** X1: a session on [/ws] made of text frames and ended by a disconnect
    returns normally (the removal in the handler does not raise
    [ValueError]), leaves the database and the messages sent untouched and
    the number of subscribers as it was; when the handle was not subscribed
    before, the whole state is as before the connection.  A binary frame, on
    the other hand, ends the handler with [KeyError], which is not caught,
    and the handle stays subscribed. *)
Theorem websocket_endpoint_session :
  forall (ws : WebSocket) (texts : list string) (rest : list frame) (w : world),
    let w' := snd (websocket_endpoint ws (map Text texts ++ Disconnect :: rest) w) in
    (fst (websocket_endpoint ws (map Text texts ++ Disconnect :: rest) w) = Return tt
     /\ waste_db w' = waste_db w
     /\ sent (manager w') = sent (manager w)
     /\ List.length (active_connections (manager w'))
          = List.length (active_connections (manager w))
     /\ (~ In ws (active_connections (manager w)) -> w' = w))
    /\ (forall b : string,
          websocket_endpoint ws (map Text texts ++ Bytes b :: rest) w =
            (Raise KeyError,
             {| waste_db := waste_db w;
                manager :=
                  {| active_connections := active_connections (manager w) ++ [ws];
                     is_open := is_open (manager w);
                     sent := sent (manager w) |} |})).
Proof.
  intros ws texts rest w.
  assert (Hrun : websocket_endpoint ws (map Text texts ++ Disconnect :: rest) w
                 = on_manager (remove ws)
                     {| waste_db := waste_db w;
                        manager := snd (connect ws (manager w)) |}).
  { unfold websocket_endpoint, bind. unfold on_manager at 1.
    unfold connect. cbn [fst snd].
    now rewrite receive_loop_until_disconnect. }
  cbv zeta. split.
  - rewrite Hrun. unfold on_manager, remove, connect.
    cbn [manager active_connections is_open sent waste_db snd].
    destruct (list_remove_after_append ws (active_connections (manager w)))
      as [l' [Hl' Hlen]].
    rewrite Hl'. cbn [fst snd waste_db manager active_connections sent].
    repeat split; [assumption|].
    intros Hnew.
    rewrite list_remove_present in Hl' by assumption.
    injection Hl' as <-. rewrite app_nil_r.
    destruct w as [d [conns open log]]. reflexivity.
  - intros b. unfold websocket_endpoint, bind. unfold on_manager.
    unfold connect. cbn [fst snd].
    now rewrite receive_loop_until_bytes.
Qed.

(** X2: text frames are discarded.  While the client has not disconnected
    the handler has only appended the handle to the subscriber list: the
    database, the connections and the messages sent are as before. *)
Theorem websocket_endpoint_texts_discarded :
  forall (ws : WebSocket) (texts : list string) (w : world),
    websocket_endpoint ws (map Text texts) w =
      (Return tt,
       {| waste_db := waste_db w;
          manager := {| active_connections := active_connections (manager w) ++ [ws];
                        is_open := is_open (manager w);
                        sent := sent (manager w) |} |}).
Proof.
  intros ws texts w. unfold websocket_endpoint, bind.
  unfold on_manager, connect.
  induction texts as [|s texts IH]; [reflexivity | exact IH].
Qed.

(** ** Delivery *)

Section DeliveryFacts.
Context {message : Type}.
Implicit Types (h : hub message) (m : message) (ws : WebSocket).

Lemma open_prefix_members (open : WebSocket -> bool) conns :
  Forall (fun ws => In ws conns /\ open ws = true) (open_prefix open conns).
Proof.
  induction conns as [|x conns IH]; cbn [open_prefix]; [constructor|].
  destruct (open x) eqn:E; [|constructor].
  constructor; [split; [now left | assumption]|].
  eapply Forall_impl; [|exact IH]. intros ws [Hin Hopen].
  split; [now right | assumption].
Qed.

(** What one connection gets out of a run of sends of the same message. *)
Lemma received_of_sends ws m conns :
  map snd (filter (fun p : WebSocket * message => Nat.eqb (fst p) ws)
                  (map (fun x => (x, m)) conns))
  = repeat m (count_occ Nat.eq_dec conns ws).
Proof.
  induction conns as [|x conns IH]; [reflexivity|].
  cbn [map filter fst count_occ].
  destruct (Nat.eq_dec x ws) as [->|Hne].
  - rewrite Nat.eqb_refl. cbn [map snd repeat]. now rewrite IH.
  - apply Nat.eqb_neq in Hne. now rewrite Hne.
Qed.

Lemma received_after_sends h ws m conns :
  received {| active_connections := active_connections h;
              is_open := is_open h;
              sent := sent h ++ map (fun x => (x, m)) conns |} ws
  = received h ws ++ repeat m (count_occ Nat.eq_dec conns ws).
Proof.
  unfold received. cbn [sent].
  now rewrite filter_app, map_app, received_of_sends.
Qed.

End DeliveryFacts.

(** X3: messages reach a client in the order of the broadcasts.  When every
    subscriber is reachable, a broadcast appends the message to what each
    subscribed connection has received (once per time it is listed), so
    after two broadcasts every client holds the first message before the
    second. *)
Theorem broadcast_received_in_order :
  forall (h : hub message) (m1 m2 : message) (ws : WebSocket),
    forallb (is_open h) (active_connections h) = true ->
    received (snd (broadcast m1 h)) ws =
      received h ws ++ repeat m1 (count_occ Nat.eq_dec (active_connections h) ws)
    /\ received (snd (broadcast m2 (snd (broadcast m1 h)))) ws =
         received h ws
           ++ repeat m1 (count_occ Nat.eq_dec (active_connections h) ws)
           ++ repeat m2 (count_occ Nat.eq_dec (active_connections h) ws).
Proof.
  intros h m1 m2 ws Hall.
  assert (Hfirst : broadcast m1 h =
            (Return tt,
             {| active_connections := active_connections h;
                is_open := is_open h;
                sent := sent h ++ map (fun x => (x, m1)) (active_connections h) |})).
  { rewrite broadcast_spec, Hall. now rewrite open_prefix_all. }
  rewrite Hfirst. cbn [snd]. split.
  - apply received_after_sends.
  - rewrite broadcast_spec.
    cbn [snd active_connections is_open sent].
    rewrite open_prefix_all by assumption.
    rewrite (received_after_sends
               {| active_connections := active_connections h;
                  is_open := is_open h;
                  sent := sent h ++ map (fun x => (x, m1)) (active_connections h) |}).
    rewrite received_after_sends. now rewrite <- app_assoc.
Qed.

Lemma broadcast_received_in_order_witness :
  received (snd (broadcast message_2 (snd (broadcast message_1 three_clients)))) 2%nat
  = [message_1; message_2].
Proof.
  exact (proj2 (broadcast_received_in_order three_clients message_1 message_2
                  2%nat eq_refl)).
Defined.

(** X4: a broadcast never changes the subscriber list and never rewrites
    what was sent before; whatever it adds is the given message, sent to a
    connection that is subscribed and open. *)
Theorem broadcast_only_appends :
  forall (h : hub message) (m : message),
    active_connections (snd (broadcast m h)) = active_connections h
    /\ exists pushed,
         sent (snd (broadcast m h)) = sent h ++ pushed
         /\ Forall (fun p => snd p = m
                             /\ In (fst p) (active_connections h)
                             /\ is_open h (fst p) = true) pushed.
Proof.
  intros h m. rewrite broadcast_spec. cbn [snd active_connections sent].
  split; [reflexivity|].
  eexists. split; [reflexivity|].
  apply Forall_map.
  eapply Forall_impl; [|apply open_prefix_members].
  intros ws [Hin Hopen]. cbn [fst snd]. auto.
Qed.

(** X5: once a handle that was subscribed once has been removed, broadcasts
    no longer reach it: the handle is not in the list any more and what it
    has received stays as it was. *)
Theorem removed_client_receives_nothing :
  forall (h h' : hub message) (ws : WebSocket) (m : message),
    NoDup (active_connections h) ->
    remove ws h = (Return tt, h') ->
    ~ In ws (active_connections h')
    /\ received (snd (broadcast m h')) ws = received h ws.
Proof.
  intros h h' ws m Hnodup Hremove. unfold remove in Hremove.
  destruct (list_remove ws (active_connections h)) as [l|] eqn:Hl; [|discriminate].
  injection Hremove as <-.
  destruct (list_remove_some_split _ _ _ Hl) as [l1 [l2 [Hsplit [-> Hl1]]]].
  rewrite Hsplit in Hnodup. apply NoDup_remove_2 in Hnodup.
  cbn [active_connections]. split; [exact Hnodup|].
  rewrite broadcast_spec. cbn [snd active_connections is_open sent].
  rewrite (received_after_sends
             {| active_connections := l1 ++ l2; is_open := is_open h; sent := sent h |}).
  rewrite (proj1 (count_occ_not_In Nat.eq_dec _ ws)).
  - cbn [repeat]. now rewrite app_nil_r.
  - intros Hin.
    pose proof (open_prefix_members (is_open h) (l1 ++ l2)) as Hmem.
    rewrite Forall_forall in Hmem. destruct (Hmem ws Hin) as [Hin' _].
    contradiction.
Qed.

Lemma removed_client_receives_nothing_witness :
  received (snd (broadcast message_1
                   (snd (remove 2%nat three_clients)))) 2%nat = [].
Proof.
  assert (Hnodup : NoDup (active_connections three_clients)).
  { unfold three_clients. cbn [active_connections].
    repeat (constructor; [cbn [In]; lia|]). constructor. }
  exact (proj2 (removed_client_receives_nothing three_clients
                  (snd (remove 2%nat three_clients)) 2%nat message_1
                  Hnodup eq_refl)).
Defined.

(** X6: a subscriber whose connection is gone blocks every later broadcast
    for as long as it stays in the list, and the broadcasts go through again
    once its handle has been removed: with [ws] the only dead subscriber,
    each broadcast raises before the removal, and after it the message
    reaches all the others. *)
Theorem dead_subscriber_blocks_until_removed :
  forall (h : hub message) (l1 l2 : list WebSocket) (ws : WebSocket)
         (m1 m2 : message),
    active_connections h = l1 ++ ws :: l2 ->
    forallb (is_open h) (l1 ++ l2) = true ->
    is_open h ws = false ->
    fst (broadcast m1 h) = Raise SendError
    /\ fst (broadcast m2 (snd (broadcast m1 h))) = Raise SendError
    /\ exists h',
         remove ws (snd (broadcast m1 h)) = (Return tt, h')
         /\ active_connections h' = l1 ++ l2
         /\ broadcast m2 h' =
              (Return tt,
               {| active_connections := l1 ++ l2;
                  is_open := is_open h;
                  sent := sent h' ++ map (fun x => (x, m2)) (l1 ++ l2) |}).
Proof.
  intros h l1 l2 ws m1 m2 Hsplit Hothers Hdead.
  assert (Hl1 : forallb (is_open h) l1 = true)
    by (rewrite forallb_app in Hothers; now apply andb_prop in Hothers).
  assert (Hnot : forallb (is_open h) (active_connections h) = false)
    by (rewrite Hsplit; now apply forallb_split_false).
  assert (Hfresh : ~ In ws l1).
  { intros Hin. rewrite forallb_forall in Hl1.
    rewrite (Hl1 ws Hin) in Hdead. discriminate. }
  rewrite !broadcast_spec. cbn [fst snd active_connections is_open sent].
  rewrite Hnot. split; [reflexivity|]. split; [reflexivity|].
  unfold remove. cbn [active_connections is_open sent].
  rewrite Hsplit, list_remove_present by assumption.
  eexists. split; [reflexivity|]. split; [reflexivity|].
  rewrite broadcast_spec. cbn [active_connections is_open sent].
  rewrite Hothers.
  now rewrite (open_prefix_all (is_open h) (l1 ++ l2)) by assumption.
Qed.

Lemma dead_subscriber_blocks_until_removed_witness :
  fst (broadcast message_1 (manager second_client_gone)) = Raise SendError
  /\ fst (broadcast message_2
            (snd (remove 2%nat (snd (broadcast message_1 (manager second_client_gone))))))
     = Return tt.
Proof.
  destruct (dead_subscriber_blocks_until_removed (manager second_client_gone)
              [1%nat] [3%nat] 2%nat message_1 message_2 eq_refl eq_refl eq_refl)
    as [Hfirst [_ [h' [Hremove [_ Hagain]]]]].
  split; [exact Hfirst|].
  rewrite Hremove. cbn [snd]. now rewrite Hagain.
Defined.

(** ** [add_detection] and the table *)

(** X7: the outcomes of [add_detection].  It answers
    [{"status": "success"}] exactly when rowids are left and every
    subscriber is reachable; it fails on the table only when the rowids are
    used up, and then nothing has changed; it fails on a send only after the
    row has been stored; the [CHECK] constraint never fails it, and it
    raises neither [ValueError] nor [KeyError]. *)
Theorem add_detection_outcomes :
  forall (w : world) (confidence : float) (now : clock),
    match fst (add_detection confidence now w) with
    | Return r =>
        r = {| status := "success" |}
        /\ largest_rowid (waste_db w) < max_rowid
        /\ forallb (is_open (manager w)) (active_connections (manager w)) = true
    | Raise (Sqlite DatabaseFull) =>
        max_rowid <= largest_rowid (waste_db w)
        /\ snd (add_detection confidence now w) = w
    | Raise SendError =>
        largest_rowid (waste_db w) < max_rowid
        /\ forallb (is_open (manager w)) (active_connections (manager w)) = false
        /\ COUNT (detections (waste_db (snd (add_detection confidence now w))))
           = COUNT (detections (waste_db w)) + 1
    | Raise (Sqlite IntegrityError) => False
    | Raise ValueError => False
    | Raise KeyError => False
    end.
Proof.
  intros w confidence now.
  destruct (Z_lt_le_dec (largest_rowid (waste_db w)) max_rowid) as [Hroom|Hfull].
  - rewrite add_detection_stored by assumption.
    destruct (forallb (is_open (manager w)) (active_connections (manager w)));
      cbn [fst snd waste_db]; repeat split; try assumption.
    unfold after_insert, COUNT. cbn [detections].
    rewrite length_app. cbn [List.length]. lia.
  - rewrite add_detection_full by assumption. cbn [fst snd]. now split.
Qed.

(** X8: [add_detection] only ever appends.  Whatever its outcome, the rows
    stored before are still there, in place and unchanged, at most one row
    has been added after them, the subscriber list is the same, and the
    messages sent before are still the head of the log. *)
Theorem add_detection_append_only :
  forall (w : world) (confidence : float) (now : clock),
    let w' := snd (add_detection confidence now w) in
    (exists added,
        detections (waste_db w') = detections (waste_db w) ++ added
        /\ (List.length added <= 1)%nat)
    /\ active_connections (manager w') = active_connections (manager w)
    /\ exists pushed, sent (manager w') = sent (manager w) ++ pushed.
Proof.
  intros w confidence now. cbv zeta.
  destruct (Z_lt_le_dec (largest_rowid (waste_db w)) max_rowid) as [Hroom|Hfull].
  - rewrite add_detection_stored by assumption.
    cbn [snd waste_db manager active_connections sent]. unfold after_insert.
    cbn [detections]. split; [|split].
    + eexists. split; [reflexivity|]. cbn [List.length]. lia.
    + reflexivity.
    + eexists. reflexivity.
  - rewrite add_detection_full by assumption. cbn [snd]. split; [|split].
    + exists []. rewrite app_nil_r. split; [reflexivity | cbn [List.length]; lia].
    + reflexivity.
    + exists []. now rewrite app_nil_r.
Qed.

Lemma StronglySorted_snoc (l : list Z) (x : Z) :
  StronglySorted Z.lt l -> Forall (fun y => y < x) l ->
  StronglySorted Z.lt (l ++ [x]).
Proof.
  induction 1 as [|y l Hl IH Hy]; intros Hbelow; cbn [app].
  - repeat constructor.
  - inversion Hbelow as [|? ? Hyx Hrest]; subst.
    constructor; [now apply IH|].
    apply Forall_app. split; [assumption | now repeat constructor].
Qed.

Lemma StronglySorted_lt_NoDup (l : list Z) :
  StronglySorted Z.lt l -> NoDup l.
Proof.
  induction 1 as [|y l Hl IH Hy]; constructor; [|assumption].
  intros Hin. rewrite Forall_forall in Hy. specialize (Hy y Hin). lia.
Qed.

(** X9: the table keeps its invariants across [add_detection], whatever the
    outcome: the ids stay strictly increasing in storage order, hence
    distinct, and every stored category stays ['organic']. *)
Theorem add_detection_keeps_table_invariants :
  forall (w : world) (confidence : float) (now : clock),
    ids_increasing (waste_db w) ->
    all_organic (waste_db w) ->
    let d' := waste_db (snd (add_detection confidence now w)) in
    ids_increasing d' /\ NoDup (map id (detections d')) /\ all_organic d'.
Proof.
  intros w confidence now Hids Horganic. cbv zeta.
  assert (Hboth : ids_increasing (waste_db (snd (add_detection confidence now w)))
                  /\ all_organic (waste_db (snd (add_detection confidence now w)))).
  { destruct (Z_lt_le_dec (largest_rowid (waste_db w)) max_rowid) as [Hroom|Hfull].
    - rewrite add_detection_stored by assumption. cbn [snd waste_db].
      unfold ids_increasing, all_organic, after_insert in *. cbn [detections].
      split.
      + rewrite map_app. cbn [map id]. apply StronglySorted_snoc; [assumption|].
        apply Forall_map.
        eapply Forall_impl; [|exact (proj2 (largest_rowid_bounds (waste_db w)))].
        cbn beta. intros; lia.
      + apply Forall_app. split; [assumption|]. now repeat constructor.
    - rewrite add_detection_full by assumption. now split. }
  destruct Hboth as [Hids' Horganic'].
  split; [assumption|]. split; [|assumption].
  now apply StronglySorted_lt_NoDup.
Qed.

Lemma add_detection_keeps_table_invariants_witness :
  NoDup (map id (detections (waste_db (snd (add_detection 0.9%float
           (instant at_2025_03_15_22_30_00) two_rows_one_client))))).
Proof.
  assert (Hids : ids_increasing (waste_db two_rows_one_client)).
  { unfold ids_increasing, two_rows_one_client. cbn [waste_db detections map id].
    repeat (constructor; [|repeat constructor; lia]). constructor. }
  assert (Horganic : all_organic (waste_db two_rows_one_client)).
  { unfold all_organic, two_rows_one_client. cbn [waste_db detections].
    repeat constructor. }
  exact (proj1 (proj2 (add_detection_keeps_table_invariants two_rows_one_client
                         0.9%float (instant at_2025_03_15_22_30_00) Hids Horganic))).
Defined.

(** ** The groups as a partition of the rows *)

Section GroupPartition.
Context {A : Type} (key : A -> string).
Implicit Types (gs : list (string * list A)) (rows : list A).

Lemma group_insert_total k a gs :
  List.length (flat_map snd (group_insert k a gs))
  = S (List.length (flat_map snd gs)).
Proof.
  induction gs as [|[k0 g0] rest IH]; [reflexivity|].
  cbn [group_insert]. destruct (String.compare k k0); cbn [flat_map snd].
  - rewrite !length_app. cbn [List.length]. lia.
  - reflexivity.
  - rewrite !length_app, IH. lia.
Qed.

(** Every row is in one group. *)
Lemma group_by_total rows :
  List.length (flat_map snd (group_by key rows)) = List.length rows.
Proof.
  induction rows as [|r rows IH] using rev_ind; [reflexivity|].
  rewrite group_by_snoc, group_insert_total, IH, length_app.
  cbn [List.length]. lia.
Qed.

Lemma total_of_counts gs :
  total (map (fun kg => COUNT (snd kg)) gs)
  = Z.of_nat (List.length (flat_map snd gs)).
Proof.
  induction gs as [|[k g] gs IH]; [reflexivity|].
  cbn [map total fold_right flat_map snd]. fold (total (map (fun kg => COUNT (snd kg)) gs)).
  rewrite IH, length_app. unfold COUNT. lia.
Qed.

(** The key of every row is a key of the result. *)
Lemma group_by_key_listed rows r :
  In r rows -> In (key r) (map fst (group_by key rows)).
Proof.
  intros Hin.
  destruct (group_by_lookup key rows (key r)) as [[_ Hnone] | [g [Hone _]]].
  - assert (Hr : In r (filter (fun x => String.eqb (key x) (key r)) rows))
      by (apply filter_In; split; [assumption | apply String.eqb_refl]).
    rewrite Hnone in Hr. destruct Hr.
  - apply in_map_iff. exists (key r, g). split; [reflexivity|].
    eapply (proj1 (filter_In _ _ _)). rewrite Hone. now left.
Qed.

Lemma sorted_keys_NoDup gs :
  StronglySorted key_lt gs -> NoDup (map fst gs).
Proof.
  induction 1 as [|kg gs Hgs IH Hhead]; cbn [map]; constructor; [|assumption].
  intros Hin. apply in_map_iff in Hin as [kg' [Hfst Hin]].
  rewrite Forall_forall in Hhead. specialize (Hhead kg' Hin).
  unfold key_lt in Hhead. rewrite Hfst, string_compare_refl in Hhead.
  discriminate.
Qed.

End GroupPartition.

Lemma hourly_data_labels hours now_daily now d :
  map hour (hourly_data (get_stats hours now_daily now d))
  = map fst (group_by (fun r => strftime_H (detection_time r)) (last_24_hours now d)).
Proof. rewrite hourly_data_groups, map_map. reflexivity. Qed.

Lemma hourly_data_counts hours now_daily now d :
  total (map count (hourly_data (get_stats hours now_daily now d)))
  = COUNT (last_24_hours now d).
Proof.
  rewrite hourly_data_groups, map_map. cbn [count].
  rewrite total_of_counts, group_by_total. reflexivity.
Qed.

Lemma hourly_data_lists_hour hours now_daily now d r :
  In r (last_24_hours now d) ->
  In (strftime_H (detection_time r)) (map hour (hourly_data (get_stats hours now_daily now d))).
Proof.
  intros Hin. rewrite hourly_data_labels.
  exact (group_by_key_listed (fun r => strftime_H (detection_time r)) _ r Hin).
Qed.

(** X10: the hourly breakdown partitions the events of the last 24 hours.
    Its labels are distinct, so there are 24 entries at most; the hour of
    every event of the window is listed; and the counts add up to the number
    of events in the window. *)
Theorem hourly_data_partitions_window :
  forall (hours : Z) (now_daily now : datetime) (d : db),
    NoDup (map hour (hourly_data (get_stats hours now_daily now d)))
    /\ (List.length (hourly_data (get_stats hours now_daily now d)) <= 24)%nat
    /\ (forall r, In r (detections d) ->
                  unix now - 24 * 3600 < unix (detection_time r) ->
                  In (strftime_H (detection_time r))
                     (map hour (hourly_data (get_stats hours now_daily now d))))
    /\ total (map count (hourly_data (get_stats hours now_daily now d)))
       = COUNT (filter (fun r => unix now - 24 * 3600 <? unix (detection_time r))
                       (detections d)).
Proof.
  intros hours now_daily now d.
  assert (Hnodup : NoDup (map hour (hourly_data (get_stats hours now_daily now d)))).
  { rewrite hourly_data_labels. apply sorted_keys_NoDup, group_by_sorted. }
  split; [assumption|]. split; [|split].
  - rewrite <- (length_map hour).
    change 24%nat with (List.length hour_labels).
    apply NoDup_incl_length; [assumption|].
    intros k Hk. rewrite hourly_data_labels in Hk.
    destruct (group_by_keys _ _ _ Hk) as [r [_ <-]].
    apply two_digits_hour_label, hour_of_bounds.
  - intros r Hin Hrecent. apply hourly_data_lists_hour.
    apply filter_In. split; [assumption|].
    unfold after_hours_before. now apply Z.ltb_lt.
  - apply hourly_data_counts.
Qed.

(** ** The day of a timestamp and its text *)

Lemma days_from_civil_from_days (days : Z) :
  days_from_civil (civil_from_days days) = days.
Proof.
  unfold days_from_civil, civil_from_days. cbv zeta.
  set (z := days + 719468).
  assert (Hdays : days = z - 719468) by (unfold z; lia).
  clearbody z. subst days.
  pose proof (day_of_era_bounds z) as Hdoe.
  set (era := z / 146097) in *.
  set (doe := z - era * 146097) in *.
  assert (Hz : z = era * 146097 + doe) by (unfold doe; lia).
  clearbody doe era. subst z.
  pose proof (day_of_year_bounds doe Hdoe) as Hdoy.
  set (yoe := (doe - doe / 1460 + doe / 36524 - doe / 146096) / 365) in *.
  assert (Hyoe : 0 <= yoe <= 399) by (unfold yoe; Z.div_mod_to_equations; lia).
  set (doy := doe - (365 * yoe + yoe / 4 - yoe / 100)) in *.
  assert (Hsum : doe = doy + (365 * yoe + yoe / 4 - yoe / 100)) by (unfold doy; lia).
  clearbody doy yoe.
  set (mp := (5 * doy + 2) / 153).
  assert (Hmp : 0 <= mp <= 11) by (unfold mp; Z.div_mod_to_equations; lia).
  assert (Hday : (153 * mp + 2) / 5 <= doy)
    by (unfold mp; Z.div_mod_to_equations; lia).
  clearbody mp.
  destruct (mp <? 10) eqn:E1.
  - apply Z.ltb_lt in E1.
    destruct (mp + 3 <=? 2) eqn:E2; [apply Z.leb_le in E2; lia|].
    destruct (2 <? mp + 3) eqn:E3; [|apply Z.ltb_ge in E3; lia].
    replace (mp + 3 - 3) with mp by lia.
    replace ((yoe + era * 400 + 0) / 400) with era
      by (Z.div_mod_to_equations; lia).
    subst doe. Z.div_mod_to_equations. lia.
  - apply Z.ltb_ge in E1.
    destruct (mp - 9 <=? 2) eqn:E2; [|apply Z.leb_gt in E2; lia].
    destruct (2 <? mp - 9) eqn:E3; [apply Z.ltb_lt in E3; lia|].
    replace (mp - 9 + 9) with mp by lia.
    replace ((yoe + era * 400 + 1 - 1) / 400) with era
      by (Z.div_mod_to_equations; lia).
    subst doe. Z.div_mod_to_equations. lia.
Qed.

Lemma civil_fields (t : Z) :
  civil_from_days (t / seconds_per_day) = (year_of t, month_of t, day_of t).
Proof.
  unfold year_of, month_of, day_of.
  now destruct (civil_from_days (t / seconds_per_day)) as [[y m] dd].
Qed.

Lemma day_of_bounds (t : Z) : 1 <= day_of t <= 31.
Proof.
  unfold day_of, civil_from_days. cbv zeta.
  set (z := t / seconds_per_day + 719468).
  pose proof (day_of_era_bounds z) as Hdoe.
  set (doe := z - z / 146097 * 146097) in *.
  pose proof (day_of_year_bounds doe Hdoe) as Hdoy.
  set (doy := doe - _) in *. clearbody doy.
  Z.div_mod_to_equations. lia.
Qed.

Lemma datetime_year_bounds (t : datetime) : 0 <= year_of (unix t) <= 9999.
Proof.
  pose proof (unix_in_range t) as Hrange. unfold year_in_range in Hrange.
  apply andb_prop in Hrange as [Hlo Hhi]. apply Z.leb_le in Hlo, Hhi. lia.
Qed.

Lemma two_digits_inj (a b : Z) :
  0 <= a < 100 -> 0 <= b < 100 -> two_digits a = two_digits b -> a = b.
Proof.
  intros Ha Hb Heq. unfold two_digits in Heq.
  injection Heq as H1 H0. apply digit_inj in H1, H0.
  Z.div_mod_to_equations. lia.
Qed.

Lemma four_digits_inj (a b : Z) :
  0 <= a <= 9999 -> 0 <= b <= 9999 -> four_digits a = four_digits b -> a = b.
Proof.
  intros Ha Hb Heq. unfold four_digits, two_digits in Heq.
  injection Heq as H3 H2 H1 H0. apply digit_inj in H3, H2, H1, H0.
  Z.div_mod_to_equations. lia.
Qed.

(** Two timestamps with the same [DATE] text lie on the same day. *)
Lemma DATE_same_day (t1 t2 : datetime) :
  DATE t1 = DATE t2 -> unix t1 / seconds_per_day = unix t2 / seconds_per_day.
Proof.
  intros Heq.
  assert (Hfields : year_of (unix t1) = year_of (unix t2)
                    /\ month_of (unix t1) = month_of (unix t2)
                    /\ day_of (unix t1) = day_of (unix t2)).
  { unfold DATE in Heq.
    pose proof (datetime_year_bounds t1). pose proof (datetime_year_bounds t2).
    pose proof (month_of_bounds (unix t1)). pose proof (month_of_bounds (unix t2)).
    pose proof (day_of_bounds (unix t1)). pose proof (day_of_bounds (unix t2)).
    unfold four_digits, two_digits in Heq. cbn [append] in Heq.
    injection Heq as Hy3 Hy2 Hy1 Hy0 Hm1 Hm0 Hd1 Hd0.
    split; [|split].
    - apply four_digits_inj; [assumption | assumption |].
      unfold four_digits, two_digits. congruence.
    - apply two_digits_inj; [lia | lia |]. unfold two_digits. congruence.
    - apply two_digits_inj; [lia | lia |]. unfold two_digits. congruence. }
  destruct Hfields as [Hy [Hm Hd]].
  rewrite <- (days_from_civil_from_days (unix t1 / seconds_per_day)).
  rewrite <- (days_from_civil_from_days (unix t2 / seconds_per_day)).
  rewrite !civil_fields. congruence.
Qed.

(** The events of the day on which the daily statement runs all lie in the
    24 hours before the hourly statement, when that one runs on the same
    day. *)
Lemma today_in_last_24_hours (now_daily now_hourly : datetime) (d : db)
    (r : detection) :
  DATE now_daily = DATE now_hourly ->
  In r (today now_daily d) -> In r (last_24_hours now_hourly d).
Proof.
  intros Hsame. unfold today, last_24_hours. rewrite !filter_In.
  intros [Hin Hdate]. split; [assumption|].
  apply String.eqb_eq in Hdate. rewrite Hsame in Hdate.
  apply DATE_same_day in Hdate.
  unfold after_hours_before, seconds_per_day in *. apply Z.ltb_lt.
  Z.div_mod_to_equations. lia.
Qed.

(** ** The daily figures *)

Lemma filter_length_le {A : Type} (p q : A -> bool) (l : list A) :
  (forall x, In x (filter p l) -> In x (filter q l)) ->
  (List.length (filter p l) <= List.length (filter q l))%nat.
Proof.
  induction l as [|x l IH]; intros Himp; [reflexivity|].
  assert (Htail : forall y, In y (filter p l) -> In y (filter q l)).
  { intros y Hy. apply filter_In in Hy as [Hy Hp].
    assert (Hq : In y (filter q (x :: l)))
      by (apply Himp, filter_In; split; [now right | assumption]).
    apply filter_In in Hq as [_ Hq]. apply filter_In. now split. }
  specialize (IH Htail). cbn [filter].
  destruct (p x) eqn:Hp.
  - assert (Hq : In x (filter q (x :: l)))
      by (apply Himp, filter_In; split; [now left | assumption]).
    apply filter_In in Hq as [_ Hq]. rewrite Hq. cbn [List.length]. lia.
  - destruct (q x); cbn [List.length]; lia.
Qed.

Lemma non_null_all_none {A : Type} (xs : list (option A)) :
  non_null xs = [] <-> Forall (fun x => x = None) xs.
Proof.
  unfold non_null. induction xs as [|[v|] xs IH]; cbn [flat_map app].
  - split; constructor.
  - split; [discriminate|]. intros H. inversion H. discriminate.
  - rewrite IH. split; [now constructor|]. intros H. now inversion H.
Qed.

Lemma AVG_of_nulls (xs : list (option float)) :
  Forall (fun x => x = None) xs -> AVG xs = None.
Proof.
  intros Hnone. apply non_null_all_none in Hnone. unfold AVG. now rewrite Hnone.
Qed.

Lemma AVG_not_nan (xs : list (option float)) (x : float) :
  AVG xs = Some x -> PrimFloat.is_nan x = false.
Proof.
  unfold AVG, result_double. destruct (non_null xs) as [|v vs]; [discriminate|].
  destruct (PrimFloat.is_nan _) eqn:Hnan; [discriminate|].
  now intros [= <-].
Qed.

Lemma float_or_0_not_nan (conf : option float) :
  (forall x, conf = Some x -> PrimFloat.is_nan x = false) ->
  PrimFloat.is_nan (float_or_0 conf) = false.
Proof.
  intros Hconf. destruct conf as [f|]; cbn [float_or_0]; [|reflexivity].
  destruct (PrimFloat.eqb f 0%float); [reflexivity | now apply Hconf].
Qed.

Lemma AVG_skips_null (xs : list (option float)) :
  AVG (xs ++ [None]) = AVG xs.
Proof.
  unfold AVG, non_null. rewrite flat_map_app. cbn [flat_map app].
  now rewrite app_nil_r.
Qed.

(** The rows of the day of [now] once a row stamped [stamp] has been added:
    the new row is among them when [stamp] lies on that day. *)
Lemma today_after_insert (now stamp : datetime) (d : db) (rowid : Z)
    (item : option string) (conf : option float) :
  today now
    {| detections := detections d ++
         [{| id := rowid; detection_time := stamp; item_type := item; confidence := conf |}];
       sqlite_sequence := rowid |}
  = today now d ++
      (if String.eqb (DATE stamp) (DATE now)
       then [{| id := rowid; detection_time := stamp;
                item_type := item; confidence := conf |}]
       else []).
Proof.
  unfold today. cbn [detections]. rewrite filter_app. cbn [filter detection_time].
  now destruct (String.eqb (DATE stamp) (DATE now)).
Qed.

(** X11: when the two statements of [get_stats] read the clock on the same
    day, the events counted for the current day are all events of the last
    24 hours: [daily_total] does not exceed the sum of the hourly counts,
    and the hour of every event of the day is listed in [hourly_data]. *)
Theorem daily_total_within_hourly_counts :
  forall (hours : Z) (now_daily now_hourly : datetime) (d : db),
    DATE now_daily = DATE now_hourly ->
    daily_total (get_stats hours now_daily now_hourly d)
      <= total (map count (hourly_data (get_stats hours now_daily now_hourly d)))
    /\ (forall r, In r (detections d) ->
                  DATE (detection_time r) = DATE now_daily ->
                  In (strftime_H (detection_time r))
                     (map hour (hourly_data (get_stats hours now_daily now_hourly d)))).
Proof.
  intros hours now_daily now_hourly d Hsame. split.
  - rewrite hourly_data_counts.
    unfold get_stats. cbn [daily_total fst]. unfold COUNT.
    apply inj_le. unfold today, last_24_hours.
    apply filter_length_le. intros r Hr.
    exact (today_in_last_24_hours now_daily now_hourly d r Hsame Hr).
  - intros r Hin Hdate. apply hourly_data_lists_hour.
    apply (today_in_last_24_hours now_daily now_hourly d r Hsame).
    apply filter_In. split; [assumption|].
    now apply String.eqb_eq.
Qed.

Lemma daily_total_within_hourly_counts_witness :
  daily_total (get_stats 24 at_2025_03_15_20_30_00 at_2025_03_15_22_30_00
                 around_new_year)
  <= total (map count (hourly_data
              (get_stats 24 at_2025_03_15_20_30_00 at_2025_03_15_22_30_00
                 around_new_year))).
Proof.
  exact (proj1 (daily_total_within_hourly_counts 24 at_2025_03_15_20_30_00
                  at_2025_03_15_22_30_00 around_new_year eq_refl)).
Defined.

(** Across midnight the two figures part: with the daily statement run on
    the last second of a day and the hourly one a second later, an event of
    the first second of that day is counted for the day and is no longer in
    the last 24 hours. *)
Example get_stats_across_midnight :
  let d := {| detections :=
                [{| id := 1; detection_time := at_2025_03_15_00_00_00;
                    item_type := Some "organic"; confidence := Some 0.5%float |}];
              sqlite_sequence := 1 |} in
  daily_total (get_stats 24 at_2025_03_15_23_59_59 at_2025_03_16_00_00_00 d) = 1
  /\ hourly_data (get_stats 24 at_2025_03_15_23_59_59 at_2025_03_16_00_00_00 d) = [].
Proof. split; vm_compute; reflexivity. Qed.

(** X12: no average that [get_stats] reports is a NaN.  The daily average
    is [None] or a double that is not a NaN, and it is [None] when no event
    of the current day holds a confidence; every hourly confidence is a
    double that is not a NaN. *)
Theorem get_stats_averages_never_nan :
  forall (hours : Z) (now_daily now_hourly : datetime) (d : db),
    (forall x,
        daily_avg_confidence (get_stats hours now_daily now_hourly d) = Some x ->
        PrimFloat.is_nan x = false)
    /\ (Forall (fun r => confidence r = None)
               (filter (fun r => String.eqb (DATE (detection_time r)) (DATE now_daily))
                       (detections d)) ->
        daily_avg_confidence (get_stats hours now_daily now_hourly d) = None)
    /\ Forall (fun e => PrimFloat.is_nan (hourly_confidence e) = false)
              (hourly_data (get_stats hours now_daily now_hourly d)).
Proof.
  intros hours now_daily now_hourly d. split; [|split].
  - intros x Havg. unfold get_stats in Havg. cbn [daily_avg_confidence snd] in Havg.
    exact (AVG_not_nan _ _ Havg).
  - intros Hnone. unfold get_stats. cbn [daily_avg_confidence snd].
    apply AVG_of_nulls. now apply Forall_map.
  - rewrite hourly_data_groups. apply Forall_map, Forall_forall.
    intros [k g] _. cbn [hourly_confidence snd].
    apply float_or_0_not_nan. intros x. apply AVG_not_nan.
Qed.

(** A zero of either sign is stored as [0.0]. *)
Example bind_double_negative_zero :
  bind_double (PrimFloat.opp 0%float) = Some 0%float.
Proof. vm_compute. reflexivity. Qed.

(** An infinity and its opposite stored on the same day: their sum is a NaN
    and the daily average is [None]. *)
Example get_stats_opposite_infinities :
  let d := {| detections :=
                [{| id := 1; detection_time := at_2025_03_15_20_30_00;
                    item_type := Some "organic";
                    confidence := Some PrimFloat.infinity |};
                 {| id := 2; detection_time := at_2025_03_15_22_30_00;
                    item_type := Some "organic";
                    confidence := Some PrimFloat.neg_infinity |}];
              sqlite_sequence := 2 |} in
  daily_avg_confidence (get_stats 24 at_2025_03_15_22_30_00 at_2025_03_15_22_30_00 d)
  = None.
Proof. vm_compute. reflexivity. Qed.

(** X13: a NaN confidence is stored as [NULL]: the event counts in
    [daily_total] (of a statement that runs on the day of its timestamp),
    and the daily average is what it was without it. *)
Theorem add_detection_nan_counted_not_averaged :
  forall (w : world) (confidence : float) (now : clock) (hours : Z)
         (now_daily now_hourly : datetime),
    PrimFloat.is_nan confidence = true ->
    largest_rowid (waste_db w) < max_rowid ->
    let d' := waste_db (snd (add_detection confidence now w)) in
    daily_total (get_stats hours now_daily now_hourly d')
      = daily_total (get_stats hours now_daily now_hourly (waste_db w))
        + (if String.eqb (DATE (at_insert now)) (DATE now_daily) then 1 else 0)
    /\ daily_avg_confidence (get_stats hours now_daily now_hourly d')
       = daily_avg_confidence (get_stats hours now_daily now_hourly (waste_db w)).
Proof.
  intros w c now hours now_daily now_hourly Hnan Hroom. cbv zeta.
  rewrite add_detection_stored by assumption. cbn [snd waste_db].
  unfold after_insert, bind_double. rewrite Hnan.
  unfold get_stats. cbn [daily_total daily_avg_confidence fst snd].
  rewrite today_after_insert.
  destruct (String.eqb (DATE (at_insert now)) (DATE now_daily)).
  - split.
    + unfold COUNT. rewrite length_app. cbn [List.length]. lia.
    + rewrite map_app. cbn [map Store.confidence]. apply AVG_skips_null.
  - rewrite app_nil_r. split; [lia | reflexivity].
Qed.

Lemma add_detection_nan_counted_not_averaged_witness :
  let d' := waste_db (snd (add_detection PrimFloat.nan (instant at_2025_03_15_22_30_00)
                             {| waste_db := one_event_at_20_30; manager := no_client |})) in
  daily_total (get_stats 24 at_2025_03_15_22_30_00 at_2025_03_15_22_30_00 d') = 2
  /\ daily_avg_confidence (get_stats 24 at_2025_03_15_22_30_00 at_2025_03_15_22_30_00 d')
     = Some 0.5%float.
Proof.
  exact (add_detection_nan_counted_not_averaged
           {| waste_db := one_event_at_20_30; manager := no_client |}
           PrimFloat.nan (instant at_2025_03_15_22_30_00) 24
           at_2025_03_15_22_30_00 at_2025_03_15_22_30_00 eq_refl eq_refl).
Defined.

(** ** What is pushed *)

(** X14: every message [add_detection] sends is a ["new_detection"] that
    carries the id of the row just stored and the confidence received, with
    the statistics of the table after the insert, at the instants the two
    statements read the clock.  Their [daily_total] counts the new event
    exactly when the daily statement runs on the day of the row's timestamp;
    their [hourly_data] lists its hour when the hourly statement runs less
    than 24 hours after the timestamp. *)
Theorem add_detection_pushes_fresh_stats :
  forall (w : world) (confidence : float) (now : clock),
    largest_rowid (waste_db w) < max_rowid ->
    let w' := snd (add_detection confidence now w) in
    exists pushed,
      sent (manager w') = sent (manager w) ++ pushed
      /\ Forall (fun p =>
                   event (snd p) = "new_detection"
                   /\ data_id (data (snd p)) = largest_rowid (waste_db w) + 1
                   /\ data_confidence (data (snd p)) = confidence
                   /\ message_stats (snd p)
                      = get_stats default_hours (at_daily now) (at_hourly now)
                          (waste_db w')
                   /\ daily_total (message_stats (snd p))
                      = daily_total (get_stats default_hours (at_daily now)
                                       (at_hourly now) (waste_db w))
                        + (if String.eqb (DATE (at_insert now)) (DATE (at_daily now))
                           then 1 else 0)
                   /\ (unix (at_hourly now) - 24 * 3600 < unix (at_insert now) ->
                       In (strftime_H (at_insert now))
                          (map hour (hourly_data (message_stats (snd p))))))
                pushed.
Proof.
  intros w confidence now Hroom. cbv zeta.
  rewrite add_detection_stored by assumption.
  cbn [snd manager sent waste_db].
  eexists. split; [reflexivity|].
  apply Forall_map, Forall_forall. intros ws _. cbn [snd].
  unfold broadcast_of, new_detection.
  cbn [event data data_id data_confidence message_stats].
  repeat split.
  - unfold after_insert, get_stats. cbn [daily_total fst].
    rewrite today_after_insert. unfold COUNT.
    destruct (String.eqb (DATE (at_insert now)) (DATE (at_daily now)));
      rewrite length_app; cbn [List.length]; lia.
  - intros Hrecent.
    change (strftime_H (at_insert now)) with
      (strftime_H (detection_time
         {| id := largest_rowid (waste_db w) + 1; detection_time := at_insert now;
            item_type := Some "organic"; confidence := bind_double confidence |})).
    apply hourly_data_lists_hour.
    unfold last_24_hours, after_insert. cbn [detections].
    apply filter_In. split.
    + apply in_or_app. right. now left.
    + unfold after_hours_before. cbn [detection_time]. now apply Z.ltb_lt.
Qed.

Lemma add_detection_pushes_fresh_stats_witness :
  exists pushed,
    sent (manager (snd (add_detection 0.9%float across_midnight
                          two_rows_one_client))) = pushed
    /\ Forall (fun p => data_id (data (snd p)) = 12
                        /\ daily_total (message_stats (snd p)) = 0
                        /\ map hour (hourly_data (message_stats (snd p))) = ["23"])
              pushed.
Proof.
  destruct (add_detection_pushes_fresh_stats two_rows_one_client 0.9%float
              across_midnight eq_refl) as [pushed [Hsent Hall]].
  exists pushed. split; [exact Hsent|].
  eapply Forall_impl; [|exact Hall].
  intros p [_ [Hid [_ [Hstats [Htotal _]]]]].
  split; [exact Hid|]. split; [exact Htotal|].
  rewrite Hstats. vm_compute. reflexivity.
Defined.

(** X15: a client that has connected and is still listening receives the
    push of a detection reported afterwards (all subscribers being
    reachable and rowids left): the request answers success, and the last
    message on the connection carries the id of the new row. *)
Theorem connected_client_receives_push :
  forall (w : world) (ws : WebSocket) (texts : list string)
         (confidence : float) (now : clock),
    largest_rowid (waste_db w) < max_rowid ->
    forallb (is_open (manager w)) (active_connections (manager w) ++ [ws]) = true ->
    let w1 := snd (websocket_endpoint ws (map Text texts) w) in
    let w2 := snd (add_detection confidence now w1) in
    fst (add_detection confidence now w1) = Return {| status := "success" |}
    /\ exists earlier m,
         received (manager w2) ws = earlier ++ [m]
         /\ data_id (data m) = largest_rowid (waste_db w) + 1
         /\ data_confidence (data m) = confidence.
Proof.
  intros w ws texts confidence now Hroom Hall. cbv zeta.
  assert (Hlistening :
            websocket_endpoint ws (map Text texts) w =
              (Return tt,
               {| waste_db := waste_db w;
                  manager := {| active_connections := active_connections (manager w) ++ [ws];
                                is_open := is_open (manager w);
                                sent := sent (manager w) |} |})).
  { unfold websocket_endpoint, bind, on_manager, connect.
    induction texts as [|s texts IH]; [reflexivity | exact IH]. }
  rewrite Hlistening. cbn [snd].
  rewrite add_detection_stored by assumption.
  cbn [fst snd waste_db manager active_connections is_open sent].
  rewrite Hall. split; [reflexivity|].
  rewrite open_prefix_all by assumption.
  set (m := broadcast_of _ _ _).
  rewrite (received_after_sends
             {| active_connections := active_connections (manager w) ++ [ws];
                is_open := is_open (manager w);
                sent := sent (manager w) |}).
  rewrite count_occ_app. cbn [count_occ].
  destruct (Nat.eq_dec ws ws) as [_|Hne]; [|contradiction].
  rewrite Nat.add_1_r. cbn [repeat]. rewrite repeat_cons.
  exists (received {| active_connections := active_connections (manager w) ++ [ws];
                      is_open := is_open (manager w);
                      sent := sent (manager w) |} ws
          ++ repeat m (count_occ Nat.eq_dec (active_connections (manager w)) ws)), m.
  split; [now rewrite app_assoc|].
  split; reflexivity.
Qed.

Lemma connected_client_receives_push_witness :
  fst (add_detection 0.75%float (instant at_2025_03_15_22_30_00)
         (snd (websocket_endpoint 7%nat [Text "hello"] fresh_world)))
  = Return {| status := "success" |}.
Proof.
  exact (proj1 (connected_client_receives_push fresh_world 7%nat ["hello"]
                  0.75%float (instant at_2025_03_15_22_30_00) eq_refl eq_refl)).
Defined.

(** ** The months as a partition of the year *)

Lemma total_map_add {A : Type} (a b : A -> Z) (l : list A) :
  total (map (fun x => a x + b x) l) = total (map a l) + total (map b l).
Proof.
  unfold total. induction l as [|x l IH]; cbn [map fold_right]; lia.
Qed.

Lemma total_map_scale (k : Z) (xs : list Z) :
  total (map (fun x => x * k) xs) = k * total xs.
Proof.
  unfold total. induction xs as [|x xs IH]; cbn [map fold_right]; lia.
Qed.

Lemma existsb_absent (x : Z) (ns : list Z) :
  ~ In x ns -> existsb (Z.eqb x) ns = false.
Proof.
  induction ns as [|n ns IH]; cbn [existsb In]; intros Hnot; [reflexivity|].
  destruct (Z.eqb_spec x n) as [->|Hne]; [tauto|]. apply IH. tauto.
Qed.

Lemma indicator_total (x : Z) (ns : list Z) :
  NoDup ns ->
  total (map (fun n => if x =? n then 1 else 0) ns)
  = if existsb (Z.eqb x) ns then 1 else 0.
Proof.
  induction 1 as [|n ns Hfresh Hns IH]; [reflexivity|].
  cbn [map total fold_right existsb].
  fold (total (map (fun n => if x =? n then 1 else 0) ns)). rewrite IH.
  destruct (Z.eqb_spec x n) as [->|Hne]; cbn [orb].
  - now rewrite existsb_absent.
  - destruct (existsb (Z.eqb x) ns); reflexivity.
Qed.

(** Rows counted value by value are counted once each. *)
Lemma count_by_value {A : Type} (p : A -> bool) (f : A -> Z) (ns : list Z)
    (l : list A) :
  NoDup ns ->
  total (map (fun n => COUNT (filter (fun r => p r && (f r =? n)) l)) ns)
  = COUNT (filter (fun r => p r && existsb (Z.eqb (f r)) ns) l).
Proof.
  intros Hns. induction l as [|r l IH].
  - cbn [filter]. unfold COUNT. cbn [List.length].
    unfold total. induction ns as [|n ns IHns]; [reflexivity|].
    cbn [map fold_right]. inversion Hns; subst. rewrite IHns by assumption. reflexivity.
  - cbn [filter]. destruct (p r) eqn:Hp; cbn [andb].
    + rewrite (map_ext _ (fun n => (if f r =? n then 1 else 0)
                                   + COUNT (filter (fun r => p r && (f r =? n)) l))).
      2:{ intros n. destruct (f r =? n); unfold COUNT; cbn [List.length]; lia. }
      rewrite total_map_add, IH, indicator_total by assumption.
      destruct (existsb (Z.eqb (f r)) ns); unfold COUNT; cbn [List.length]; lia.
    + exact IH.
Qed.

Lemma month_listed (m : Z) :
  1 <= m <= 12 -> existsb (Z.eqb m) (map fst months) = true.
Proof.
  intros Hm.
  assert (Hcases : In m [1; 2; 3; 4; 5; 6; 7; 8; 9; 10; 11; 12]) by (cbn [In]; lia).
  cbn [In] in Hcases.
  repeat (destruct Hcases as [<- | Hcases]; [reflexivity|]).
  contradiction.
Qed.

(** X16: every stored event of 2025 is counted in exactly one month: the
    twelve counts add up to the number of events of that year, and the
    twelve masses to 100 times as much. *)
Theorem monthly_counts_add_up :
  forall (d : db),
    total (map detection_count (get_monthly_detections d))
      = COUNT (filter (fun r => year_of (unix (detection_time r)) =? 2025)
                      (detections d))
    /\ total (map masse (get_monthly_detections d))
       = 100 * COUNT (filter (fun r => year_of (unix (detection_time r)) =? 2025)
                             (detections d)).
Proof.
  intros d. rewrite get_monthly_detections_entries.
  assert (Hcounts :
            total (map (fun m => COUNT (events_of_month_2025 d (fst m))) months)
            = COUNT (filter (fun r => year_of (unix (detection_time r)) =? 2025)
                            (detections d))).
  { rewrite <- (map_map fst (fun n => COUNT (events_of_month_2025 d n))).
    unfold events_of_month_2025.
    rewrite (count_by_value
               (fun r => year_of (unix (detection_time r)) =? 2025)
               (fun r => month_of (unix (detection_time r)))).
    - f_equal. apply filter_ext. intros r.
      rewrite month_listed by apply month_of_bounds.
      apply andb_true_r.
    - unfold months. cbn [map fst].
      repeat (constructor; [cbn [In]; lia|]). constructor. }
  split.
  - rewrite map_map. exact Hcounts.
  - rewrite <- Hcounts, <- total_map_scale, !map_map. reflexivity.
Qed.

(** ** The [detections_by_month] table *)

Lemma StronglySorted_map_In {A B : Type} (R : A -> A -> Prop) (R' : B -> B -> Prop)
    (f : A -> B) (l : list A) :
  (forall a b, In a l -> In b l -> R a b -> R' (f a) (f b)) ->
  StronglySorted R l -> StronglySorted R' (map f l).
Proof.
  intros Hmono Hsorted. induction Hsorted as [|a l Hl IH Hhead]; cbn [map]; constructor.
  - apply IH. intros x y Hx Hy. apply Hmono; now right.
  - apply Forall_map. rewrite Forall_forall in *. intros b Hb.
    apply Hmono; [now left | now right | now apply Hhead].
Qed.

(** On months the order of the two-digit texts is the order of the numbers. *)
Lemma two_digits_month_lt (a b : Z) :
  1 <= a <= 12 -> 1 <= b <= 12 ->
  String.compare (two_digits a) (two_digits b) = Lt -> a < b.
Proof.
  intros Ha Hb.
  assert (Hca : In a [1; 2; 3; 4; 5; 6; 7; 8; 9; 10; 11; 12]) by (cbn [In]; lia).
  assert (Hcb : In b [1; 2; 3; 4; 5; 6; 7; 8; 9; 10; 11; 12]) by (cbn [In]; lia).
  cbn [In] in Hca, Hcb. clear Ha Hb.
  repeat (destruct Hca as [<- | Hca];
          [repeat (destruct Hcb as [<- | Hcb];
                   [vm_compute; intros H; first [reflexivity | discriminate H]|]);
           contradiction|]).
  contradiction.
Qed.

(** X17: [detections_by_month] holds one row for each month of 2025 that
    has an event and none for the others: every month that has a stored
    event of 2025 has its row, the month numbers lie in 1..12 and strictly
    increase, and each count is positive and is the number of stored events
    of that month of 2025. *)
Theorem detections_by_month_rows :
  forall (d : db),
    (forall n, 1 <= n <= 12 ->
               events_of_month_2025 d n <> [] ->
               In (n, COUNT (events_of_month_2025 d n)) (detections_by_month d))
    /\ Forall (fun b => 1 <= fst b <= 12
                        /\ 1 <= snd b
                        /\ snd b = COUNT (events_of_month_2025 d (fst b)))
              (detections_by_month d)
    /\ StronglySorted (fun a b => fst a < fst b) (detections_by_month d).
Proof.
  intros d. split.
  { intros n Hn Hsome.
    pose proof (detections_by_month_partner d (n, "") Hn) as Hpartner.
    unfold joined_count in Hpartner. cbn [fst] in Hpartner.
    destruct (Z.eqb_spec (COUNT (events_of_month_2025 d n)) 0) as [Hzero|_].
    - unfold COUNT in Hzero. destruct (events_of_month_2025 d n);
        [contradiction | cbn [List.length] in Hzero; lia].
    - eapply (proj1 (filter_In _ _ _)). rewrite Hpartner. now left. }
  unfold detections_by_month.
  set (key := fun r => strftime_m (detection_time r)).
  set (rows := filter in_2025 (detections d)).
  assert (Hkeys : forall k g, In (k, g) (group_by key rows) ->
                    exists m, 1 <= m <= 12 /\ k = two_digits m).
  { intros k g Hin.
    destruct (group_by_keys key rows k) as [r [_ Hk]].
    { apply in_map_iff. exists (k, g). auto. }
    exists (month_of (unix (detection_time r))).
    split; [apply month_of_bounds | now symmetry]. }
  split.
  - apply Forall_map, Forall_forall. intros [k g] Hin. cbn [fst snd].
    destruct (Hkeys k g Hin) as [m [Hm ->]].
    destruct (group_by_member key rows _ _ Hin) as [Hne Hlen].
    rewrite cast_two_digits_month by assumption.
    split; [assumption|]. split.
    + unfold COUNT. destruct g; [contradiction | cbn [List.length]; lia].
    + unfold COUNT. rewrite Hlen. f_equal. f_equal.
      now apply rows_with_month_text.
  - eapply StronglySorted_map_In; [|apply (group_by_sorted key rows)].
    intros [k1 g1] [k2 g2] Hin1 Hin2 Hlt. cbn [fst].
    destruct (Hkeys k1 g1 Hin1) as [m1 [Hm1 ->]].
    destruct (Hkeys k2 g2 Hin2) as [m2 [Hm2 ->]].
    rewrite !cast_two_digits_month by assumption.
    now apply two_digits_month_lt.
Qed.

(** ** The [CHECK] constraint *)

(** X18: the table accepts a row exactly when its category is ['organic'] or
    [NULL] and a rowid is left; the row then gets the id after the largest
    one the table ever held and is stored last, with the values given. *)
Theorem insert_accepts_iff :
  forall (item : option string) (conf : option float) (now : datetime)
         (d : db) (rowid : Z),
    fst (insert item conf now d) = inr rowid
    <-> ((item = Some "organic" \/ item = None)
         /\ largest_rowid d < max_rowid
         /\ rowid = largest_rowid d + 1
         /\ detections (snd (insert item conf now d)) =
              detections d ++
                [{| id := rowid; detection_time := now;
                    item_type := item; confidence := conf |}]).
Proof.
  intros item conf now d rowid. unfold insert.
  destruct (Z.leb_spec max_rowid (largest_rowid d)) as [Hfull|Hroom].
  - cbn [fst]. split; [discriminate | lia].
  - destruct item as [category|]; cbn [check_item_type negb].
    + destruct (String.eqb_spec category "organic") as [->|Hother]; cbn [negb fst snd].
      * split.
        -- intros [= <-]. cbn [detections]. repeat split; auto.
        -- intros [_ [_ [-> _]]]. reflexivity.
      * split; [discriminate|].
        intros [[[= Heq]|Hnone] _]; [contradiction | discriminate].
    + cbn [fst snd]. split.
      * intros [= <-]. cbn [detections]. repeat split; auto.
      * intros [_ [_ [-> _]]]. reflexivity.
Qed.

(** ** Successive requests *)

Lemma fold_max_below (b : Z) (l : list Z) :
  Forall (fun x => x <= b) l -> fold_right Z.max b l = b.
Proof.
  induction 1 as [|x l Hx Hl IH]; cbn [fold_right]; [reflexivity|].
  rewrite IH. lia.
Qed.

(** After an insert the largest rowid is the one just handed out. *)
Lemma largest_rowid_after_insert confidence now w :
  largest_rowid (after_insert confidence now w) = largest_rowid (waste_db w) + 1.
Proof.
  unfold after_insert. unfold largest_rowid at 1.
  cbn [detections sqlite_sequence]. rewrite map_app, fold_right_app.
  cbn [map fold_right id]. rewrite Z.max_id.
  apply fold_max_below. apply Forall_map.
  eapply Forall_impl; [|exact (proj2 (largest_rowid_bounds (waste_db w)))].
  cbn beta. intros; lia.
Qed.

Lemma add_detections_ids_from (requests : list (float * clock)) :
  forall (n : nat) (w : world),
    map id (detections (waste_db w)) = map Z.of_nat (seq 1 n) ->
    largest_rowid (waste_db w) = Z.of_nat n ->
    Z.of_nat (n + List.length requests) < max_rowid ->
    map id (detections (waste_db (add_detections requests w)))
    = map Z.of_nat (seq 1 (n + List.length requests)).
Proof.
  induction requests as [|[confidence now] rest IH]; intros n w Hids Hlast Hroom.
  - cbn [add_detections List.length]. now rewrite Nat.add_0_r.
  - cbn [add_detections List.length] in *.
    assert (Hnow : largest_rowid (waste_db w) < max_rowid) by lia.
    replace (n + S (List.length rest))%nat with (S n + List.length rest)%nat in * by lia.
    apply IH; [| |assumption];
      rewrite add_detection_stored by assumption; cbn [snd waste_db].
    + unfold after_insert. cbn [detections].
      rewrite map_app, Hids, seq_S, map_app. cbn [map id]. rewrite Hlast.
      f_equal. f_equal. lia.
    + rewrite largest_rowid_after_insert. lia.
Qed.

(** X19: on a table that starts empty, successive requests number their
    rows 1, 2, 3, ... in request order, whether or not their broadcasts
    succeed (the rowids not running out). *)
Theorem add_detections_number_from_one :
  forall (requests : list (float * clock)) (w : world),
    waste_db w = empty_db ->
    Z.of_nat (List.length requests) < max_rowid ->
    map id (detections (waste_db (add_detections requests w)))
    = map Z.of_nat (seq 1 (List.length requests)).
Proof.
  intros requests w Hempty Hroom.
  apply (add_detections_ids_from requests 0%nat w).
  - now rewrite Hempty.
  - now rewrite Hempty.
  - exact Hroom.
Qed.

Lemma add_detections_number_from_one_witness :
  map id (detections (waste_db
    (add_detections [(0.5%float, instant at_2025_01_01_00_00_00);
                     (0.25%float, instant at_2025_03_15_20_30_00);
                     (0.75%float, across_midnight)]
                    second_client_gone)))
  = [1; 2; 3].
Proof.
  exact (add_detections_number_from_one
           [(0.5%float, instant at_2025_01_01_00_00_00);
            (0.25%float, instant at_2025_03_15_20_30_00);
            (0.75%float, across_midnight)]
           second_client_gone eq_refl eq_refl).
Defined.

(** X20: a stored detection shows in the monthly breakdown at once: after
    [add_detection] the count of the month of the row's timestamp is one
    more when the timestamp lies in 2025, and every other count is what it
    was. *)
Theorem add_detection_shows_in_monthly :
  forall (w : world) (confidence : float) (now : clock),
    largest_rowid (waste_db w) < max_rowid ->
    map detection_count
        (get_monthly_detections (waste_db (snd (add_detection confidence now w))))
    = map (fun m =>
             COUNT (events_of_month_2025 (waste_db w) (fst m))
             + (if (year_of (unix (at_insert now)) =? 2025)
                   && (month_of (unix (at_insert now)) =? fst m)
                then 1 else 0))
          months.
Proof.
  intros w confidence now Hroom.
  rewrite add_detection_stored by assumption. cbn [snd waste_db].
  rewrite get_monthly_detections_entries, map_map.
  apply map_ext. intros m.
  unfold monthly_entry, events_of_month_2025, after_insert.
  cbn [detection_count detections]. rewrite filter_app.
  cbn [filter detection_time].
  destruct ((year_of (unix (at_insert now)) =? 2025)
            && (month_of (unix (at_insert now)) =? fst m));
    unfold COUNT; rewrite length_app; cbn [List.length]; lia.
Qed.

Lemma add_detection_shows_in_monthly_witness :
  map detection_count
      (get_monthly_detections
         (waste_db (snd (add_detection 0.9%float (instant at_2025_03_15_22_30_00)
                           two_rows_one_client))))
  = [1; 0; 1; 0; 0; 0; 0; 0; 0; 0; 0; 0].
Proof.
  rewrite (add_detection_shows_in_monthly two_rows_one_client 0.9%float
             (instant at_2025_03_15_22_30_00) eq_refl).
  vm_compute. reflexivity.
Defined.
